(** * GateHubClient: the signed-request transport and the workflows built on it

    A shallow embedding of [packages/wallet/backend/src/gatehub/client.ts].

    Conventions.
    - A JavaScript string is modelled by the [string] of its UTF-8 bytes
      (what [Hmac.update] hashes and what goes on the wire).
    - An optional parameter or property ([body?: string]) is an [option];
      [None] is [undefined].
    - The clock, the transport with the provider behind it, [JSON.parse] and
      the numbers are the fields of a [Runtime]; the constants of
      [@/gatehub/consts], whose file is not among the sources, are the fields
      of a [Consts].  The client is parameterised by both and by its [Env].
    - An [async] method is a function from the trace of the provider calls
      issued so far to a completion (a value or a thrown exception) and the
      extended trace.
    - The logger is a sink and is left out; the payload the client builds
      for it is not, since building it can throw. *)

From Stdlib Require Import ZArith Ascii String List.
From stdpp Require Import base tactics option list gmap strings pretty.

#[local] Set Warnings "-clear-no-such-hyp".

Local Open Scope Z_scope.

(** ** Node's [crypto]: SHA-256 (FIPS 180-4) and HMAC (RFC 2104) *)

Module SHA256.

Definition wrap32 (x : Z) : Z := x mod 2 ^ 32.
Definition add32 (x y : Z) : Z := wrap32 (x + y).
Definition not32 (x : Z) : Z := Z.lxor x (2 ^ 32 - 1).
Definition rotr (n x : Z) : Z :=
  Z.lor (Z.shiftr x n) (wrap32 (Z.shiftl x (32 - n))).
Definition shr (n x : Z) : Z := Z.shiftr x n.

Definition Ch (x y z : Z) : Z := Z.lxor (Z.land x y) (Z.land (not32 x) z).
Definition Maj (x y z : Z) : Z :=
  Z.lxor (Z.lxor (Z.land x y) (Z.land x z)) (Z.land y z).
Definition Sigma0 (x : Z) : Z := Z.lxor (Z.lxor (rotr 2 x) (rotr 13 x)) (rotr 22 x).
Definition Sigma1 (x : Z) : Z := Z.lxor (Z.lxor (rotr 6 x) (rotr 11 x)) (rotr 25 x).
Definition sigma0 (x : Z) : Z := Z.lxor (Z.lxor (rotr 7 x) (rotr 18 x)) (shr 3 x).
Definition sigma1 (x : Z) : Z := Z.lxor (Z.lxor (rotr 17 x) (rotr 19 x)) (shr 10 x).

(** The round constants are the first 32 bits of the fractional parts of
    the cube roots of the first 64 primes, the initial hash value those of
    the square roots of the first 8. *)
Definition primes : list Z :=
  [2; 3; 5; 7; 11; 13; 17; 19; 23; 29; 31; 37; 41; 43; 47; 53;
   59; 61; 67; 71; 73; 79; 83; 89; 97; 101; 103; 107; 109; 113; 127; 131;
   137; 139; 149; 151; 157; 163; 167; 173; 179; 181; 191; 193; 197; 199; 211; 223;
   227; 229; 233; 239; 241; 251; 257; 263; 269; 271; 277; 281; 283; 293; 307; 311].

(** The greatest [r + d], [0 <= d < 2^k], whose cube is at most [n]. *)
Fixpoint cube_root_from (k : nat) (n r : Z) : Z :=
  match k with
  | O => r
  | S k' =>
      let c := r + 2 ^ Z.of_nat k' in
      cube_root_from k' n (if c * c * c <=? n then c else r)
  end.

Definition frac_cbrt (p : Z) : Z := wrap32 (cube_root_from 40 (p * 2 ^ 96) 0).
Definition frac_sqrt (p : Z) : Z := wrap32 (Z.sqrt (p * 2 ^ 64)).

Definition K : list Z := Eval vm_compute in map frac_cbrt primes.
Definition H0 : list Z := Eval vm_compute in map frac_sqrt (take 8 primes).

(** Padding: a 1 bit, zeros up to 56 mod 64, the bit length on 8 bytes. *)
Definition be_bytes (n : nat) (x : Z) : list Z :=
  map (fun i => Z.shiftr x (8 * Z.of_nat i) mod 256) (rev (seq 0 n)).

Definition pad (msg : list Z) : list Z :=
  let len := Z.of_nat (length msg) in
  let zeros := Z.to_nat ((55 - len) mod 64) in
  msg ++ [128] ++ repeat 0 zeros ++ be_bytes 8 (8 * len).

Fixpoint be_word (bs : list Z) (acc : Z) : Z :=
  match bs with
  | [] => acc
  | b :: bs' => be_word bs' (acc * 256 + b)
  end.

Fixpoint words (n : nat) (bs : list Z) : list Z :=
  match n with
  | O => []
  | S n' => be_word (take 4 bs) 0 :: words n' (drop 4 bs)
  end.

(** The message schedule: 16 words of the block, then 48 derived ones. *)
Fixpoint schedule (n : nat) (w : list Z) : list Z :=
  match n with
  | O => w
  | S n' =>
      let t := length w in
      let at_ (i : nat) := nth (t - i) w 0 in
      schedule n'
        (w ++ [add32 (add32 (sigma1 (at_ 2%nat)) (at_ 7%nat))
                     (add32 (sigma0 (at_ 15%nat)) (at_ 16%nat))])
  end.

Record regs := Regs { ra : Z; rb : Z; rc : Z; rd : Z; re : Z; rf : Z; rg : Z; rh : Z }.

Definition round (s : regs) (kw : Z * Z) : regs :=
  let '(k, w) := kw in
  let t1 := add32 (add32 (add32 (rh s) (Sigma1 (re s))) (Ch (re s) (rf s) (rg s)))
                  (add32 k w) in
  let t2 := add32 (Sigma0 (ra s)) (Maj (ra s) (rb s) (rc s)) in
  Regs (add32 t1 t2) (ra s) (rb s) (rc s) (add32 (rd s) t1) (re s) (rf s) (rg s).

Definition regs_of (h : list Z) : regs :=
  Regs (nth 0 h 0) (nth 1 h 0) (nth 2 h 0) (nth 3 h 0)
       (nth 4 h 0) (nth 5 h 0) (nth 6 h 0) (nth 7 h 0).

Definition list_of (s : regs) : list Z :=
  [ra s; rb s; rc s; rd s; re s; rf s; rg s; rh s].

Definition compress (h : list Z) (block : list Z) : list Z :=
  let w := schedule 48 (words 16 block) in
  let s := fold_left round (combine K w) (regs_of h) in
  map (fun p => add32 (fst p) (snd p)) (combine h (list_of s)).

Fixpoint blocks (n : nat) (h : list Z) (bs : list Z) : list Z :=
  match n with
  | O => h
  | S n' => blocks n' (compress h (take 64 bs)) (drop 64 bs)
  end.

(** The 32 bytes of the digest. *)
Definition digest (msg : list Z) : list Z :=
  let p := pad msg in
  concat (map (be_bytes 4) (blocks (length p / 64) H0 p)).

End SHA256.

Module HMAC.

Definition block_size : nat := 64.

Definition block_key (key : list Z) : list Z :=
  let k := if (block_size <? length key)%nat then SHA256.digest key else key in
  k ++ repeat 0 (block_size - length k).

Definition xor_pad (c : Z) (k : list Z) : list Z := map (Z.lxor c) k.

Definition sha256 (key msg : list Z) : list Z :=
  let k := block_key key in
  SHA256.digest (xor_pad 92 k ++ SHA256.digest (xor_pad 54 k ++ msg)).

End HMAC.

Definition bytes_of_string (s : string) : list Z :=
  map (fun c => Z.of_N (N_of_ascii c)) (list_ascii_of_string s).

Definition hex_digit (d : Z) : ascii :=
  ascii_of_N (Z.to_N (if d <? 10 then 48 + d else 87 + d)).

Definition hex_of_bytes (bs : list Z) : string :=
  string_of_list_ascii (concat (map (fun b => [hex_digit (b / 16); hex_digit (b mod 16)]) bs)).

(** [createHmac('sha256', key).update(msg).digest('hex')] *)
Definition createHmac_sha256_hex (key msg : string) : string :=
  hex_of_bytes (HMAC.sha256 (bytes_of_string key) (bytes_of_string msg)).

Definition sha256_hex (msg : string) : string :=
  hex_of_bytes (SHA256.digest (bytes_of_string msg)).

(** ** JavaScript values the client handles *)

(** Truthiness of an optional string: [undefined] and [''] are falsy. *)
Definition truthy (s : option string) : bool :=
  match s with
  | Some (String _ _) => true
  | _ => false
  end.

(** [Array.prototype.join] *)
Definition join (sep : string) (args : list string) : string := String.concat sep args.

(** JSON texts and request bodies.  Numbers in the bodies the client builds
    are integers. *)
#[local] Set Warnings "-register-all".
Inductive JSValue : Type :=
| JNull
| JBool (b : bool)
| JNumber (n : Z)
| JString (s : string)
| JArray (items : list JSValue)
| JObject (props : list (string * JSValue)).

Module JSON.

(** The quotation mark, code unit 34. *)
Definition dquote : string := String "034" "".

Definition hex4 (n : N) : string :=
  string_of_list_ascii
    (map (fun k => hex_digit (Z.of_N (N.shiftr n (4 * k)) mod 16)) [3; 2; 1; 0]%N).

(** QuoteJSONString, on one code unit. *)
Definition escape (c : ascii) : string :=
  let n := N_of_ascii c in
  if (n =? 8)%N then "\b"
  else if (n =? 9)%N then "\t"
  else if (n =? 10)%N then "\n"
  else if (n =? 12)%N then "\f"
  else if (n =? 13)%N then "\r"
  else if (n =? 34)%N then "\" +:+ dquote
  else if (n =? 92)%N then "\\"
  else if (n <? 32)%N then "\u" +:+ hex4 n
  else String c "".

Fixpoint escape_all (s : string) : string :=
  match s with
  | EmptyString => ""
  | String c s' => escape c +:+ escape_all s'
  end.

Definition quote (s : string) : string := dquote +:+ escape_all s +:+ dquote.

Fixpoint stringify (v : JSValue) : string :=
  match v with
  | JNull => "null"
  | JBool true => "true"
  | JBool false => "false"
  | JNumber n => pretty n
  | JString s => quote s
  | JArray items => "[" +:+ join "," (map stringify items) +:+ "]"
  | JObject props =>
      "{" +:+ join "," (map (fun p => quote (fst p) +:+ ":" +:+ stringify (snd p)) props)
          +:+ "}"
  end.

End JSON.

(** ** Looking up a property of a plain object

    [obj[key]] on an object literal or a parsed JSON object first looks at
    the object's own properties and then at [Object.prototype], whose twelve
    string-keyed members every plain object inherits. *)

Definition Object_prototype : list string :=
  ["constructor"; "__defineGetter__"; "__defineSetter__"; "hasOwnProperty";
   "__lookupGetter__"; "__lookupSetter__"; "isPrototypeOf"; "propertyIsEnumerable";
   "toString"; "valueOf"; "__proto__"; "toLocaleString"].

Inductive Lookup (A : Type) : Type :=
| Own (a : A)
| Inherited (member : string)
| Undefined.
Arguments Own {A} a.
Arguments Inherited {A} member.
Arguments Undefined {A}.

Definition obj_get {A : Type} (obj : gmap string A) (key : string) : Lookup A :=
  match obj !! key with
  | Some a => Own a
  | None => if bool_decide (key ∈ Object_prototype) then Inherited key else Undefined
  end.

(** [obj[key] = v] for a primitive [v]: an own property is created or
    overwritten, except under the key [__proto__], where the inherited setter
    runs and ignores a value that is not an object. *)
Definition obj_set {A : Type} (obj : gmap string A) (key : string) (v : A) : gmap string A :=
  if bool_decide (key = "__proto__") then obj else <[key := v]> obj.

(** What a call of the client may evaluate to.  A URL is a [VString]; the
    other values only arise from members of [Object.prototype]. *)
Inductive Value : Type :=
| VUndefined
| VBoolean (b : bool)
| VString (s : string)
| VStringObject (s : string)
| VObject (keys : list string)
| VBuiltin (name : string).

Inductive Exn : Type :=
| BadRequest (message : string)
| Error (message : string)
| TypeError
| SyntaxError
| AxiosError (message : string)
| Unclassified (what : string).

Definition instanceof_AxiosError (e : Exn) : bool :=
  match e with
  | AxiosError _ => true
  | _ => false
  end.

Inductive Completion (A : Type) : Type :=
| Normal (a : A)
| Throw (e : Exn).
Arguments Normal {A} a.
Arguments Throw {A} e.

(** [Object.prototype[member].call(this, arg)] for a plain object [this]
    with the own enumerable keys [keys] and a string [arg]. *)
Definition Object_prototype_call (member : string) (keys : list string) (arg : string)
  : Completion Value :=
  if bool_decide (member = "toString") then Normal (VString "[object Object]")
  else if bool_decide (member = "toLocaleString") then Normal (VString "[object Object]")
  else if bool_decide (member = "valueOf") then Normal (VObject keys)
  else if bool_decide (member = "constructor") then Normal (VStringObject arg)
  else if bool_decide (member = "hasOwnProperty") then Normal (VBoolean (bool_decide (arg ∈ keys)))
  else if bool_decide (member = "propertyIsEnumerable") then
    Normal (VBoolean (bool_decide (arg ∈ keys)))
  else if bool_decide (member = "isPrototypeOf") then Normal (VBoolean false)
  else if bool_decide (member = "__lookupGetter__") then
    Normal (if bool_decide (arg = "__proto__") then VBuiltin "get __proto__" else VUndefined)
  else if bool_decide (member = "__lookupSetter__") then
    Normal (if bool_decide (arg = "__proto__") then VBuiltin "set __proto__" else VUndefined)
  else Throw TypeError.

(** ** The data model *)

(** The declaration of [HTTP_METHODS] is not among the sources; these are
    the three literals the client passes. *)
Inductive HTTP_METHODS : Type := GET | POST | PUT.

Definition method_string (m : HTTP_METHODS) : string :=
  match m with
  | GET => "GET"
  | POST => "POST"
  | PUT => "PUT"
  end.

Record Env : Type := {
  NODE_ENV : string;
  GATEHUB_ACCESS_KEY : string;
  GATEHUB_SECRET_KEY : string;
  GATEHUB_CARD_APP_ID : string
}.

Record HeadersOptions : Type := {
  managedUserUuid : option string;
  token : option string;
  cardAppId : option string
}.

Record AxiosRequestConfig : Type := {
  method : HTTP_METHODS;
  url : string;
  data : option string;
  headers : gmap string string
}.

Definition Trace : Type := list AxiosRequestConfig.

(** Modelled from the spec: the response interfaces of [@/gatehub/types] and
    [@/card/types], whose declarations are not among the sources.  A token
    response carries a token string; the first hop of the card-details flow
    may come back without one; a rates response maps a code to a rate object,
    whose rate is the provider's string representation, or to a string; the
    other responses are passed through as they are. *)
Inductive IRate : Type :=
| RateObject (rate : string)
| RateString (s : string).

Inductive ResponseType : Type :=
| ITokenResponse
| ILinksResponse
| IRatesResponse
| IPassThrough.

Definition response (T : ResponseType) : Type :=
  match T with
  | ITokenResponse => string
  | ILinksResponse => option string
  | IRatesResponse => gmap string IRate
  | IPassThrough => JSValue
  end.

Inductive AxiosResult (A : Type) : Type :=
| Resolved (res_data : A)
| Rejected (e : Exn).
Arguments Resolved {A} res_data.
Arguments Rejected {A} e.

Record ClientIds : Type := {
  onOffRamp : string;
  exchange : string;
  onboarding : string
}.

Record PaymentType : Type := {
  withdrawal : string;
  deposit : string
}.

(** The constants of [@/gatehub/consts]. *)
Record Consts : Type := {
  DEFAULT_APP_SCOPE : list string;
  ONBOARDING_APP_SCOPE : list string;
  HOSTED_WALLET_TYPE : JSValue;
  PAYMENT_TYPE : PaymentType;
  PRODUCTION_CLIENT_IDS : ClientIds;
  SANDBOX_CLIENT_IDS : ClientIds;
  SUPPORTED_ASSET_CODES : list string
}.

(** What the client runs on: the clock, the transport and the provider
    behind it (free to answer by the calls seen so far), the parser of JSON
    texts, which accepts what [JSON.stringify] writes, and the numbers, with
    the coercion [+s] of a string. *)
Record Runtime : Type := {
  Date_now : Trace → Z;
  axios : ∀ T : ResponseType, Trace → AxiosRequestConfig → AxiosResult (response T);
  JSON_parse : string → option JSValue;
  JSON_parse_stringify : ∀ v : JSValue, is_Some (JSON_parse (JSON.stringify v));
  JSNumber : Type;
  StringToNumber : string → JSNumber;
  NaN : JSNumber
}.

(** An [async] function: from the provider calls issued so far to how it
    completes and the calls issued by then. *)
Definition Async (A : Type) : Type := Trace → Completion A * Trace.

#[export] Instance Async_ret : MRet Async := λ A a trace, (Normal a, trace).

#[export] Instance Async_bind : MBind Async := λ A B k m trace,
  match m trace with
  | (Normal a, trace') => k a trace'
  | (Throw e, trace') => (Throw e, trace')
  end.

Definition throw {A : Type} (e : Exn) : Async A := λ trace, (Throw e, trace).

(** ** The client *)

Definition JSObject : Type := list (string * JSValue).

Section GateHubClient.

Context (rt : Runtime) (consts : Consts) (env : Env).

Definition isProduction : bool := bool_decide (NODE_ENV env = "production").

(** The constructor: the sandbox values unless the environment is production. *)
Definition clientIds : ClientIds :=
  if isProduction then PRODUCTION_CLIENT_IDS consts else SANDBOX_CLIENT_IDS consts.
Definition mainUrl : string :=
  if isProduction then "gatehub.net" else "sandbox.gatehub.net".

Definition apiUrl : string := "https://api." +:+ mainUrl.
Definition rampUrl : string := "https://managed-ramp." +:+ mainUrl.
Definition exchangeUrl : string := "https://exchange." +:+ mainUrl.
Definition onboardingUrl : string := "https://onboarding." +:+ mainUrl.

(** *** Signing and headers *)

(** The string [getSignature] signs: [args.join('|')]. *)
Definition toSign (timestamp : string) (method : HTTP_METHODS) (url : string)
    (body : option string) : string :=
  let args := [timestamp; method_string method; url] in
  let args := if truthy body then args ++ [default "" body] else args in
  join "|" args.

Definition getSignature (timestamp : string) (method : HTTP_METHODS) (url : string)
    (body : option string) : string :=
  createHmac_sha256_hex (GATEHUB_SECRET_KEY env) (toSign timestamp method url body).

(** [{ ...obj, ...(cond && { [key]: value }) }] *)
Definition spread_if (cond : option string) (key value : string)
    (obj : gmap string string) : gmap string string :=
  if truthy cond then <[key := value]> obj else obj.

Definition getRequestHeaders (timestamp : string) (method : HTTP_METHODS) (url : string)
    (body : option string) (headersOptions : option HeadersOptions) : gmap string string :=
  let uuid := headersOptions ≫= managedUserUuid in
  let app := headersOptions ≫= cardAppId in
  let tok := headersOptions ≫= token in
  spread_if tok "Authorization" ("Bearer " +:+ default "" tok)
    (spread_if app "x-gatehub-card-app-id" (default "" app)
      (spread_if uuid "x-gatehub-managed-user-uuid" (default "" uuid)
        (<["x-gatehub-signature" := getSignature timestamp method url body]>
          (<["x-gatehub-timestamp" := timestamp]>
            (<["x-gatehub-app-id" := GATEHUB_ACCESS_KEY env]>
              {["Content-Type" := "application/json"]}))))).

(** *** The transport *)

(** The payload handed to the logger: [body ? JSON.parse(body) : {}]. *)
Definition log_payload (body : option string) : option JSValue :=
  if truthy body then JSON_parse rt (default "" body) else Some (JObject []).

(** [request]: the timestamp is read, the headers are built over
    [body ?? ''], the call is issued, and its outcome is logged and
    handed on.  The logger is a sink; building its payload can throw. *)
Definition request (T : ResponseType) (method : HTTP_METHODS) (url : string)
    (body : option string) (headersOptions : option HeadersOptions)
  : Async (response T) := λ trace,
  let timestamp := pretty (Date_now rt trace) in
  let headers :=
    getRequestHeaders timestamp method url (Some (default "" body)) headersOptions in
  let config :=
    {| method := method; url := url;
       data := if truthy body then body else None;
       headers := headers |} in
  let trace' := trace ++ [config] in
  match axios rt T trace config with
  | Resolved res_data =>
      match log_payload body with
      | Some _ => (Normal res_data, trace')
      | None => (Throw SyntaxError, trace')
      end
  | Rejected e =>
      if instanceof_AxiosError e then
        match log_payload body with
        | Some _ => (Throw e, trace')
        | None => (Throw SyntaxError, trace')
        end
      else (Throw e, trace')
  end.

(** *** Iframe URLs *)

Definition getIframeAuthorizationToken (clientId : string) (scope : list string)
    (managedUserUuid : string) : Async string :=
  let url := apiUrl +:+ "/auth/v1/tokens?clientId=" +:+ clientId in
  let body := JObject [("scope", JArray (map JString scope))] in
  response ← request ITokenResponse POST url (Some (JSON.stringify body))
    (Some {| managedUserUuid := Some managedUserUuid; token := None; cardAppId := None |});
  mret response.

Definition getWithdrawalUrl (managedUserUuid : string) : Async string :=
  token ← getIframeAuthorizationToken (onOffRamp clientIds) (DEFAULT_APP_SCOPE consts)
    managedUserUuid;
  mret (rampUrl +:+ "/?paymentType=" +:+ withdrawal (PAYMENT_TYPE consts)
          +:+ "&bearer=" +:+ token).

Definition getDepositUrl (managedUserUuid : string) : Async string :=
  token ← getIframeAuthorizationToken (onOffRamp clientIds) (DEFAULT_APP_SCOPE consts)
    managedUserUuid;
  mret (rampUrl +:+ "/?paymentType=" +:+ deposit (PAYMENT_TYPE consts)
          +:+ "&bearer=" +:+ token).

Definition getOnboardingUrl (managedUserUuid : string) : Async string :=
  token ← getIframeAuthorizationToken (onboarding clientIds) (ONBOARDING_APP_SCOPE consts)
    managedUserUuid;
  mret (onboardingUrl +:+ "/?bearer=" +:+ token).

Definition getExchangeUrl (managedUserUuid : string) : Async string :=
  token ← getIframeAuthorizationToken (exchange clientIds) (DEFAULT_APP_SCOPE consts)
    managedUserUuid;
  mret (exchangeUrl +:+ "/?bearer=" +:+ token).

(** The object literal of the bound handlers, in the order it is written. *)
Definition iframeMappings_entries : list (string * (string → Async string)) :=
  [("deposit", getDepositUrl); ("withdrawal", getWithdrawalUrl);
   ("exchange", getExchangeUrl); ("onboarding", getOnboardingUrl)].

Definition iframeMappings : gmap string (string → Async string) :=
  list_to_map iframeMappings_entries.

(** Every property [iframeMappings[type]] can find, own or inherited, is a
    function or an object, hence truthy; only [undefined] is not. *)
Definition getIframeUrl (type managedUserUuid : string) : Async Value :=
  match obj_get iframeMappings type with
  | Undefined => throw (BadRequest "Invalid iframe type")
  | Own handler => url ← handler managedUserUuid; mret (VString url)
  | Inherited member =>
      λ trace,
        (Object_prototype_call member (iframeMappings_entries.*1) managedUserUuid, trace)
  end.

(** *** Managed users and gateways *)

Definition updateEmailForManagedUser (email : string) : Async JSValue :=
  let url := apiUrl +:+ "/auth/v1/users/managed/email" in
  let body := JObject [("email", JString email)] in
  request IPassThrough PUT url (Some (JSON.stringify body)) None.

Definition createManagedUser (email : string) : Async JSValue :=
  let url := apiUrl +:+ "/auth/v1/users/managed" in
  let body := JObject [("email", JString email)] in
  request IPassThrough POST url (Some (JSON.stringify body)) None.

Definition getUserState (userId : string) : Async JSValue :=
  let url := apiUrl +:+ "/id/v1/users/" +:+ userId in
  request IPassThrough GET url None None.

Definition approveUserToGateway_body : JSValue :=
  JObject [("verified", JNumber 1); ("reasons", JArray []); ("customMessage", JBool false)].

Definition approveUserToGateway (userUuid gatewayUuid : string) : Async JSValue :=
  let url := apiUrl +:+ "/id/v1/hubs/" +:+ gatewayUuid +:+ "/users/" +:+ userUuid in
  request IPassThrough PUT url (Some (JSON.stringify approveUserToGateway_body)) None.

Definition connectUserToGateway (managedUserUuid gatewayUuid : string) : Async bool :=
  let url :=
    apiUrl +:+ "/id/v1/users/" +:+ managedUserUuid +:+ "/hubs/" +:+ gatewayUuid in
  _ ← request IPassThrough POST url None
    (Some {| managedUserUuid := Some managedUserUuid; token := None; cardAppId := None |});
  if negb isProduction then
    (* Auto approve user to gateway in sandbox environment *)
    _ ← approveUserToGateway managedUserUuid gatewayUuid;
    mret true
  else mret false.

(** *** Wallets, transactions and rates *)

Definition createWallet (managedUserUuid name : string) : Async JSValue :=
  let url := apiUrl +:+ "/core/v1/users/" +:+ managedUserUuid +:+ "/wallets" in
  let body := JObject [("name", JString name); ("type", HOSTED_WALLET_TYPE consts)] in
  request IPassThrough POST url (Some (JSON.stringify body))
    (Some {| managedUserUuid := Some managedUserUuid; token := None; cardAppId := None |}).

Definition getWallet (userUuid walletId : string) : Async JSValue :=
  let url := apiUrl +:+ "/core/v1/users/" +:+ userUuid +:+ "/wallets/" +:+ walletId in
  request IPassThrough GET url None None.

Definition getWalletBalance (walletId : string) : Async JSValue :=
  let url := apiUrl +:+ "/core/v1/wallets/" +:+ walletId +:+ "/balances" in
  request IPassThrough GET url None None.

Definition createTransaction (body : JSObject) : Async JSValue :=
  let url := apiUrl +:+ "/core/v1/transactions" in
  request IPassThrough POST url (Some (JSON.stringify (JObject body))) None.

Definition getVaults : Async JSValue :=
  let url := apiUrl +:+ "/rates/v1/liquidity_provider/vaults" in
  request IPassThrough GET url None None.

(** [rateObj && typeof rateObj !== 'string'], on what [response[code]] found. *)
Definition rate_truthy (rateObj : Lookup IRate) : bool :=
  match rateObj with
  | Own (RateObject _) => true
  | Own (RateString s) => truthy (Some s)
  | Inherited _ => true
  | Undefined => false
  end.

Definition rate_typeof (rateObj : Lookup IRate) : string :=
  match rateObj with
  | Own (RateObject _) => "object"
  | Own (RateString _) => "string"
  | Inherited member => if bool_decide (member = "__proto__") then "object" else "function"
  | Undefined => "undefined"
  end.

(** [+rateObj.rate]; a value without a [rate] property gives [+undefined]. *)
Definition rate_number (rateObj : Lookup IRate) : JSNumber rt :=
  match rateObj with
  | Own (RateObject rate) => StringToNumber rt rate
  | _ => NaN rt
  end.

(** The body of the loop over [SUPPORTED_ASSET_CODES]. *)
Definition getRates_step (response : gmap string IRate)
    (flatRates : gmap string (JSNumber rt)) (code : string) : gmap string (JSNumber rt) :=
  let rateObj := obj_get response code in
  if rate_truthy rateObj && negb (String.eqb (rate_typeof rateObj) "string")
  then obj_set flatRates code (rate_number rateObj)
  else flatRates.

Definition getRates (base : string) : Async (gmap string (JSNumber rt)) :=
  let url :=
    apiUrl +:+ "/rates/v1/rates/current?counter=" +:+ base +:+ "&amount=1&useAll=true" in
  response ← request IRatesResponse GET url None None;
  mret (foldl (getRates_step response) ∅ (SUPPORTED_ASSET_CODES consts)).

(** *** Cards *)

Definition fetchCardApplicationProducts : Async JSValue :=
  let url :=
    apiUrl +:+ "/v1/card-applications/" +:+ GATEHUB_CARD_APP_ID env +:+ "/card-products" in
  request IPassThrough GET url None None.

Definition createCustomer (requestBody : JSObject) : Async JSValue :=
  let url := apiUrl +:+ "/v1/customers" in
  request IPassThrough POST url (Some (JSON.stringify (JObject requestBody)))
    (Some {| managedUserUuid := None; token := None;
             cardAppId := Some (GATEHUB_CARD_APP_ID env) |}).

Definition getCardsByCustomer (customerId : string) : Async JSValue :=
  let url := apiUrl +:+ "/v1/customers/" +:+ customerId +:+ "/cards" in
  request IPassThrough GET url None None.

Definition getCardDetails (requestBody : JSObject) : Async JSValue :=
  let url := apiUrl +:+ "/token/card-data" in
  response ← request ILinksResponse POST url (Some (JSON.stringify (JObject requestBody)))
    (Some {| managedUserUuid := None; token := None;
             cardAppId := Some (GATEHUB_CARD_APP_ID env) |});
  let token : option string := response in
  if negb (truthy token) then
    throw (Error "Failed to obtain token for card data retrieval")
  else
    (* Will get this from the GateHub proxy for now *)
    let cardDetailsUrl := apiUrl +:+ "/v1/proxy/client-device/card-data" in
    request IPassThrough GET cardDetailsUrl None
      (Some {| managedUserUuid := None; token := token; cardAppId := None |}).

(** *** Every public method, as one call with its arguments *)

Inductive Call : Type :=
| call_getWithdrawalUrl (managedUserUuid : string)
| call_getDepositUrl (managedUserUuid : string)
| call_getOnboardingUrl (managedUserUuid : string)
| call_getExchangeUrl (managedUserUuid : string)
| call_getIframeUrl (type managedUserUuid : string)
| call_getIframeAuthorizationToken (clientId : string) (scope : list string)
    (managedUserUuid : string)
| call_updateEmailForManagedUser (email : string)
| call_createManagedUser (email : string)
| call_getUserState (userId : string)
| call_connectUserToGateway (managedUserUuid gatewayUuid : string)
| call_createWallet (managedUserUuid name : string)
| call_getWallet (userUuid walletId : string)
| call_getWalletBalance (walletId : string)
| call_createTransaction (body : JSObject)
| call_getVaults
| call_getRates (base : string)
| call_fetchCardApplicationProducts
| call_createCustomer (requestBody : JSObject)
| call_getCardsByCustomer (customerId : string)
| call_getCardDetails (requestBody : JSObject).

Definition ignore {A : Type} (m : Async A) : Async () := _ ← m; mret ().

Definition perform (c : Call) : Async () :=
  match c with
  | call_getWithdrawalUrl u => ignore (getWithdrawalUrl u)
  | call_getDepositUrl u => ignore (getDepositUrl u)
  | call_getOnboardingUrl u => ignore (getOnboardingUrl u)
  | call_getExchangeUrl u => ignore (getExchangeUrl u)
  | call_getIframeUrl type u => ignore (getIframeUrl type u)
  | call_getIframeAuthorizationToken c s u => ignore (getIframeAuthorizationToken c s u)
  | call_updateEmailForManagedUser e => ignore (updateEmailForManagedUser e)
  | call_createManagedUser e => ignore (createManagedUser e)
  | call_getUserState u => ignore (getUserState u)
  | call_connectUserToGateway u g => ignore (connectUserToGateway u g)
  | call_createWallet u n => ignore (createWallet u n)
  | call_getWallet u w => ignore (getWallet u w)
  | call_getWalletBalance w => ignore (getWalletBalance w)
  | call_createTransaction b => ignore (createTransaction b)
  | call_getVaults => ignore getVaults
  | call_getRates b => ignore (getRates b)
  | call_fetchCardApplicationProducts => ignore fetchCardApplicationProducts
  | call_createCustomer b => ignore (createCustomer b)
  | call_getCardsByCustomer c => ignore (getCardsByCustomer c)
  | call_getCardDetails b => ignore (getCardDetails b)
  end.

End GateHubClient.

Arguments createHmac_sha256_hex : simpl never.

(** ** Concrete runtimes, to run the client on *)

Module Fixture.

Definition accept_all_parses (v : JSValue)
  : is_Some ((λ _ : string, Some JNull) (JSON.stringify v)) :=
  ex_intro _ JNull eq_refl.

(** A runtime over a scripted provider: the clock advances by a
    millisecond per call, every JSON text parses, and a number is kept as
    the numeral it was coerced from. *)
Definition runtime
    (provider : ∀ T : ResponseType, Trace → AxiosRequestConfig → AxiosResult (response T))
  : Runtime :=
  {| Date_now := λ trace, 1700000000000 + Z.of_nat (length trace);
     axios := provider;
     JSON_parse := λ _, Some JNull;
     JSON_parse_stringify := accept_all_parses;
     JSNumber := string;
     StringToNumber := λ s, s;
     NaN := "NaN" |}.

Definition rates : gmap string IRate :=
  list_to_map [("counter", RateString "USD"); ("USD", RateObject "1");
               ("EUR", RateObject "0.92"); ("XRP", RateString "unavailable");
               ("JPY", RateObject "149.5")].

(** A provider that answers every call. *)
Definition answering (T : ResponseType) (_ : Trace) (_ : AxiosRequestConfig)
  : AxiosResult (response T) :=
  match T with
  | ITokenResponse => Resolved "tkn-1"
  | ILinksResponse => Resolved (Some "card-tkn")
  | IRatesResponse => Resolved rates
  | IPassThrough => Resolved (JObject [])
  end.

(** A provider whose token-issuance response carries no token. *)
Definition tokenless (T : ResponseType) (_ : Trace) (_ : AxiosRequestConfig)
  : AxiosResult (response T) :=
  match T with
  | ITokenResponse => Resolved "tkn-1"
  | ILinksResponse => Resolved None
  | IRatesResponse => Resolved rates
  | IPassThrough => Resolved (JObject [])
  end.

(** A provider that is down. *)
Definition failing (T : ResponseType) (_ : Trace) (_ : AxiosRequestConfig)
  : AxiosResult (response T) :=
  Rejected (AxiosError "Request failed with status code 503").

Definition consts : Consts :=
  {| DEFAULT_APP_SCOPE := ["default"];
     ONBOARDING_APP_SCOPE := ["onboarding"];
     HOSTED_WALLET_TYPE := JNumber 0;
     PAYMENT_TYPE := {| withdrawal := "withdrawal"; deposit := "deposit" |};
     PRODUCTION_CLIENT_IDS :=
       {| onOffRamp := "prod-ramp"; exchange := "prod-exchange";
          onboarding := "prod-onboarding" |};
     SANDBOX_CLIENT_IDS :=
       {| onOffRamp := "sandbox-ramp"; exchange := "sandbox-exchange";
          onboarding := "sandbox-onboarding" |};
     SUPPORTED_ASSET_CODES := ["USD"; "EUR"; "GBP"; "XRP"; "JPY"] |}.

Definition sandbox : Env :=
  {| NODE_ENV := "development"; GATEHUB_ACCESS_KEY := "access-key";
     GATEHUB_SECRET_KEY := "secret-key"; GATEHUB_CARD_APP_ID := "card-app" |}.

Definition production : Env :=
  {| NODE_ENV := "production"; GATEHUB_ACCESS_KEY := "access-key";
     GATEHUB_SECRET_KEY := "secret-key"; GATEHUB_CARD_APP_ID := "card-app" |}.

End Fixture.

(** ** The vocabulary of the properties *)

(** *** What [request] issues *)

(** The configuration [request] hands to the transport. *)
Definition request_config (rt : Runtime) (env : Env) (method : HTTP_METHODS) (url : string)
    (body : option string) (headersOptions : option HeadersOptions) (trace : Trace)
  : AxiosRequestConfig :=
  {| method := method; url := url;
     data := if truthy body then body else None;
     headers := getRequestHeaders env (pretty (Date_now rt trace)) method url
                  (Some (default "" body)) headersOptions |}.

(** The signing string as the specification words it. *)
Definition canonical3 (timestamp : string) (method : HTTP_METHODS) (url : string) : string :=
  timestamp +:+ "|" +:+ method_string method +:+ "|" +:+ url.

Definition canonical4 (timestamp : string) (method : HTTP_METHODS) (url body : string)
  : string :=
  timestamp +:+ "|" +:+ method_string method +:+ "|" +:+ url +:+ "|" +:+ body.

(** *** The header set (C8) *)

Definition header_names : gset string :=
  {["Content-Type"; "x-gatehub-app-id"; "x-gatehub-timestamp"; "x-gatehub-signature";
    "x-gatehub-managed-user-uuid"; "x-gatehub-card-app-id"; "Authorization"]}.

(** An optional value, kept when it is a non-empty string. *)
Definition given (v : option string) : option string := if truthy v then v else None.

(** The options that supply, as non-empty strings, the chosen ones of the
    three optional values. *)
Definition options_for (uuid app tok : bool) : HeadersOptions :=
  {| managedUserUuid := if uuid then Some "u-1" else None;
     token := if tok then Some "t-1" else None;
     cardAppId := if app then Some "a-1" else None |}.

(** *** Determinism and collisions of the signature (C9) *)

(** Whether a string contains the delimiter of the signing string. *)
Fixpoint has_delimiter (s : string) : bool :=
  match s with
  | EmptyString => false
  | String c s' => Ascii.eqb c "|" || has_delimiter s'
  end.

(** The body as the signature sees it: an empty body counts as absent. *)
Definition signed_body (body : option string) : option string :=
  if truthy body then body else None.

(** The signing string in the specification's words: the timestamp, the
    method and the URL, and the body when there is one to sign, with the
    delimiter between them. *)
Definition signing_string (timestamp : string) (method : HTTP_METHODS) (url : string)
    (body : option string) : string :=
  match signed_body body with
  | Some b => canonical4 timestamp method url b
  | None => canonical3 timestamp method url
  end.

(** *** Connecting a user to a gateway (C2) *)

Definition only_managedUserUuid (uuid : string) : HeadersOptions :=
  {| managedUserUuid := Some uuid; token := None; cardAppId := None |}.

(** The connect POST, issued after [trace]. *)
Definition connect_config rt env (uuid gateway : string) (trace : Trace)
  : AxiosRequestConfig :=
  request_config rt env POST
    (apiUrl env +:+ "/id/v1/users/" +:+ uuid +:+ "/hubs/" +:+ gateway)
    None (Some (only_managedUserUuid uuid)) trace.

(** The body of the approval: verified=1, no reasons, no custom message. *)
Definition approval_text : string :=
  "{" +:+ JSON.dquote +:+ "verified" +:+ JSON.dquote +:+ ":1,"
      +:+ JSON.dquote +:+ "reasons" +:+ JSON.dquote +:+ ":[],"
      +:+ JSON.dquote +:+ "customMessage" +:+ JSON.dquote +:+ ":false}".

(** The approve PUT, issued after [trace]. *)
Definition approve_config rt env (uuid gateway : string) (trace : Trace)
  : AxiosRequestConfig :=
  request_config rt env PUT
    (apiUrl env +:+ "/id/v1/hubs/" +:+ gateway +:+ "/users/" +:+ uuid)
    (Some approval_text) None trace.

(** *** The two hops of the card details (C3) *)

Definition only_cardAppId (app : string) : HeadersOptions :=
  {| managedUserUuid := None; token := None; cardAppId := Some app |}.

Definition only_token (tok : option string) : HeadersOptions :=
  {| managedUserUuid := None; token := tok; cardAppId := None |}.

(** The first hop: the token-issuance POST, issued after [trace]. *)
Definition card_token_config rt env (requestBody : JSObject) (trace : Trace)
  : AxiosRequestConfig :=
  request_config rt env POST (apiUrl env +:+ "/token/card-data")
    (Some (JSON.stringify (JObject requestBody)))
    (Some (only_cardAppId (GATEHUB_CARD_APP_ID env))) trace.

(** The second hop: the card-data GET, issued after [trace]. *)
Definition card_data_config rt env (tok : string) (trace : Trace) : AxiosRequestConfig :=
  request_config rt env GET (apiUrl env +:+ "/v1/proxy/client-device/card-data")
    None (Some (only_token (Some tok))) trace.

(** *** Authentication of every call (C4) *)

(** The request carries the HMAC signature header set, computed over its
    own timestamp, method, URL and body. *)
Definition signed (env : Env) (c : AxiosRequestConfig) : Prop :=
  ∃ timestamp,
    headers c !! "x-gatehub-timestamp" = Some timestamp
    ∧ headers c !! "x-gatehub-app-id" = Some (GATEHUB_ACCESS_KEY env)
    ∧ headers c !! "x-gatehub-signature"
      = Some (getSignature env timestamp (method c) (url c) (data c)).

(** The request carries a bearer token. *)
Definition bearer (c : AxiosRequestConfig) : Prop :=
  is_Some (headers c !! "Authorization").

(** The request is the card-data fetch hop of [call]. *)
Definition is_card_data_fetch (env : Env) (call : Call) (c : AxiosRequestConfig) : Prop :=
  (∃ requestBody, call = call_getCardDetails requestBody)
  ∧ method c = GET
  ∧ url c = apiUrl env +:+ "/v1/proxy/client-device/card-data".

(** Every request [m] issues satisfies [P]. *)
Definition issues {A : Type} (P : AxiosRequestConfig → Prop) (m : Async A) : Prop :=
  ∀ trace, ∃ new, (m trace).2 = trace ++ new ∧ Forall P new.

(** A request built without a token is signed and carries no bearer token. *)
Definition signed_only (env : Env) (c : AxiosRequestConfig) : Prop :=
  signed env c ∧ ¬ bearer c.

(** What the two hops of [getCardDetails] carry. *)
Definition card_hop (env : Env) (c : AxiosRequestConfig) : Prop :=
  signed env c
  ∧ (bearer c ↔ method c = GET
                 ∧ url c = apiUrl env +:+ "/v1/proxy/client-device/card-data").

(** *** Rates (C5, C10) *)

(** The rates request, issued after [trace]. *)
Definition rates_config rt env (base : string) (trace : Trace) : AxiosRequestConfig :=
  request_config rt env GET
    (apiUrl env +:+ "/rates/v1/rates/current?counter=" +:+ base +:+ "&amount=1&useAll=true")
    None None trace.

(** The rate the response holds for a code: the number coerced from the
    rate object's string, when the code is present with a rate object. *)
Definition rate_entry rt (response : gmap string IRate) (code : string)
  : option (JSNumber rt) :=
  match response !! code with
  | Some (RateObject rate) => Some (StringToNumber rt rate)
  | _ => None
  end.

(** *** Iframe URLs (C6, C7) *)

(** What the specification documents for an iframe kind: the client
    identifier, the scope, and the URL built around the token. *)
Record IframeSelection : Type := {
  sel_clientId : string;
  sel_scope : list string;
  sel_url : string → string
}.

(** The environment the specification speaks of: one of two, production
    under the name [production] and sandbox under any other. *)
Inductive Environment : Type := Sandbox | Production.

Definition environment (env : Env) : Environment :=
  if bool_decide (NODE_ENV env = "production") then Production else Sandbox.

(** The client identifier set that is active in an environment. *)
Definition active_client_ids (consts : Consts) (e : Environment) : ClientIds :=
  match e with
  | Production => PRODUCTION_CLIENT_IDS consts
  | Sandbox => SANDBOX_CLIENT_IDS consts
  end.

(** The hosts of the provider, by environment: the API, and the three
    endpoints an iframe is served from. *)
Definition documented_api_host (e : Environment) : string :=
  match e with
  | Production => "https://api.gatehub.net"
  | Sandbox => "https://api.sandbox.gatehub.net"
  end.

Definition documented_ramp_host (e : Environment) : string :=
  match e with
  | Production => "https://managed-ramp.gatehub.net"
  | Sandbox => "https://managed-ramp.sandbox.gatehub.net"
  end.

Definition documented_exchange_host (e : Environment) : string :=
  match e with
  | Production => "https://exchange.gatehub.net"
  | Sandbox => "https://exchange.sandbox.gatehub.net"
  end.

Definition documented_onboarding_host (e : Environment) : string :=
  match e with
  | Production => "https://onboarding.gatehub.net"
  | Sandbox => "https://onboarding.sandbox.gatehub.net"
  end.

(** The documented selection, in the specification's words: deposit and
    withdrawal use the on/off-ramp client of the active set with the default
    scope and the ramp host with a payment type, exchange the exchange client
    with the default scope and the exchange host, onboarding the onboarding
    client with the onboarding scope and the onboarding host; the token is
    the query parameter [bearer].  Nothing here is taken from the client:
    the active set and the hosts are those of the environment. *)
Definition documented_iframe (consts : Consts) (env : Env) (kind : string)
  : option IframeSelection :=
  let e := environment env in
  if bool_decide (kind = "deposit") then
    Some {| sel_clientId := onOffRamp (active_client_ids consts e);
            sel_scope := DEFAULT_APP_SCOPE consts;
            sel_url := λ t, documented_ramp_host e +:+ "/?paymentType="
                              +:+ deposit (PAYMENT_TYPE consts) +:+ "&bearer=" +:+ t |}
  else if bool_decide (kind = "withdrawal") then
    Some {| sel_clientId := onOffRamp (active_client_ids consts e);
            sel_scope := DEFAULT_APP_SCOPE consts;
            sel_url := λ t, documented_ramp_host e +:+ "/?paymentType="
                              +:+ withdrawal (PAYMENT_TYPE consts) +:+ "&bearer=" +:+ t |}
  else if bool_decide (kind = "exchange") then
    Some {| sel_clientId := exchange (active_client_ids consts e);
            sel_scope := DEFAULT_APP_SCOPE consts;
            sel_url := λ t, documented_exchange_host e +:+ "/?bearer=" +:+ t |}
  else if bool_decide (kind = "onboarding") then
    Some {| sel_clientId := onboarding (active_client_ids consts e);
            sel_scope := ONBOARDING_APP_SCOPE consts;
            sel_url := λ t, documented_onboarding_host e +:+ "/?bearer=" +:+ t |}
  else None.

(** The token-issuance POST, issued after [trace]. *)
Definition iframe_token_config rt env (clientId : string) (scope : list string)
    (uuid : string) (trace : Trace) : AxiosRequestConfig :=
  request_config rt env POST (apiUrl env +:+ "/auth/v1/tokens?clientId=" +:+ clientId)
    (Some (JSON.stringify (JObject [("scope", JArray (map JString scope))])))
    (Some (only_managedUserUuid uuid)) trace.

(** ** The vocabulary of the further properties *)

(** *** A parser that refuses markup *)

(** A [JSON.parse] that refuses a text opening as markup does, as the real
    one refuses an error page of a proxy. *)
Definition parse_unless_markup (s : string) : option JSValue :=
  match s with
  | String "<" _ => None
  | _ => Some JNull
  end.

(** No text [JSON.stringify] writes opens as markup does. *)
Definition parse_unless_markup_stringify (v : JSValue)
  : is_Some (parse_unless_markup (JSON.stringify v)).
Proof.
  assert (Hgo : ∀ x s s', s ≠ String "<" s' → pretty_N_go x s ≠ String "<" s').
  { intros x. induction (N.lt_wf_0 x) as [x _ IH]; intros s s' Hs.
    assert (x = 0 ∨ 0 < x)%N as [->|?] by lia; [by rewrite pretty_N_go_0|].
    rewrite pretty_N_go_step by done. apply IH; [by apply N.div_lt|].
    unfold pretty_N_char. by repeat case_match. }
  assert (Hplain : ∀ s, (∀ s', s ≠ String "<" s') → is_Some (parse_unless_markup s)).
  { intros [|c s] Hs; [by eexists|]. unfold parse_unless_markup.
    repeat case_match; try by eexists. subst. by destruct (Hs s). }
  destruct v as [|[]|[|p|p]|s|items|props]; try (by eexists).
  unfold JSON.stringify, pretty, pretty_Z, pretty, pretty_positive, pretty, pretty_N.
  case_decide; [by eexists|]. apply Hplain. intros s'. by apply Hgo.
Qed.

(** The runtime of the fixture, with that parser. *)
Definition strict_runtime
    (provider : ∀ T : ResponseType, Trace → AxiosRequestConfig → AxiosResult (response T))
  : Runtime :=
  {| Date_now := λ trace, 1700000000000 + Z.of_nat (length trace);
     axios := provider;
     JSON_parse := parse_unless_markup;
     JSON_parse_stringify := parse_unless_markup_stringify;
     JSNumber := string;
     StringToNumber := λ s, s;
     NaN := "NaN" |}.

(** *** Requests and the trace before them *)

(** Every request [m] issues satisfies [P], which is told the calls
    issued before it. *)
Definition issues_at {A : Type} (P : Trace → AxiosRequestConfig → Prop) (m : Async A)
  : Prop :=
  ∀ trace, ∃ new,
    (m trace).2 = trace ++ new
    ∧ ∀ i c, new !! i = Some c → P (trace ++ take i new) c.

(** *** Bodies and optional headers *)

(** What a request says of its body: a GET has none, and a body is the
    JSON text of an object, is not empty, and is covered by the signature. *)
Definition body_discipline (env : Env) (c : AxiosRequestConfig) : Prop :=
  (method c = GET → data c = None)
  ∧ ∀ b, data c = Some b →
      b ≠ ""
      ∧ (∃ props, b = JSON.stringify (JObject props))
      ∧ ∃ timestamp,
          headers c !! "x-gatehub-timestamp" = Some timestamp
          ∧ headers c !! "x-gatehub-signature"
            = Some (createHmac_sha256_hex (GATEHUB_SECRET_KEY env)
                      (canonical4 timestamp (method c) (url c) b)).

(** The managed user a call is made for, when it is made for one. *)
Definition call_managedUserUuid (call : Call) : option string :=
  match call with
  | call_getWithdrawalUrl u | call_getDepositUrl u | call_getOnboardingUrl u
  | call_getExchangeUrl u | call_getIframeUrl _ u
  | call_getIframeAuthorizationToken _ _ u | call_connectUserToGateway u _
  | call_createWallet u _ => Some u
  | _ => None
  end.

(** Whether a call belongs to the card application. *)
Definition call_of_card_application (call : Call) : bool :=
  match call with
  | call_createCustomer _ | call_getCardDetails _ => true
  | _ => false
  end.

(** What a request of [call] says in its optional headers. *)
Definition optional_headers_of (env : Env) (call : Call) (c : AxiosRequestConfig) : Prop :=
  (∀ v, headers c !! "x-gatehub-managed-user-uuid" = Some v →
     call_managedUserUuid call = Some v ∧ method c = POST)
  ∧ (∀ v, headers c !! "x-gatehub-card-app-id" = Some v →
       v = GATEHUB_CARD_APP_ID env ∧ call_of_card_application call = true
       ∧ method c = POST).

(** *** How a call ends *)

(** Every request of [new], issued after [trace], was answered. *)
Definition all_answered (rt : Runtime) (trace new : list AxiosRequestConfig) : Prop :=
  ∀ i c, new !! i = Some c →
    ∃ T (d : response T), axios rt T (trace ++ take i new) c = Resolved d.

(** The last request of [new] was rejected with [e], and those before it
    were answered. *)
Definition rejected_last (rt : Runtime) (trace new : list AxiosRequestConfig) (e : Exn)
  : Prop :=
  ∃ sent c T,
    new = sent ++ [c]
    ∧ all_answered rt trace sent
    ∧ axios rt T (trace ++ sent) c = Rejected e.

(** How [m] ends, by the requests it issued: it returns when all were
    answered, and it throws either an error of its own, among [own], after
    all were answered, or the rejection of its last request, as it is. *)
Definition ends_by {A : Type} (rt : Runtime) (own : Exn → Prop) (m : Async A) : Prop :=
  ∀ trace, ∃ new,
    (m trace).2 = trace ++ new
    ∧ match (m trace).1 with
      | Normal _ => all_answered rt trace new
      | Throw e => (own e ∧ all_answered rt trace new) ∨ rejected_last rt trace new e
      end.

(** The errors a public method raises by itself. *)
Definition own_error (call : Call) (e : Exn) : Prop :=
  match call with
  | call_getIframeUrl type _ =>
      (e = BadRequest "Invalid iframe type"
       ∧ (type ∉ ["deposit"; "withdrawal"; "exchange"; "onboarding"])
       ∧ type ∉ Object_prototype)
      ∨ (e = TypeError ∧ type ∈ Object_prototype)
  | call_getCardDetails _ => e = Error "Failed to obtain token for card data retrieval"
  | _ => False
  end.

(** *** How many requests a call issues *)

Definition sends {A : Type} (lo hi : nat) (m : Async A) : Prop :=
  ∀ trace, ∃ new, (m trace).2 = trace ++ new ∧ (lo ≤ length new ≤ hi)%nat.

(** [getIframeUrl] alone may refuse before any request. *)
Definition fewest_requests (call : Call) : nat :=
  match call with
  | call_getIframeUrl _ _ => 0
  | _ => 1
  end.

(** The two workflows may issue a second request. *)
Definition most_requests (call : Call) : nat :=
  match call with
  | call_connectUserToGateway _ _ | call_getCardDetails _ => 2
  | _ => 1
  end.

(** *** The format of a signature *)

(** The digits [digest('hex')] writes. *)
Definition lowercase_hex (s : string) : Prop :=
  Forall (λ c, c ∈ list_ascii_of_string "0123456789abcdef") (list_ascii_of_string s).

(** *** Paths built from identifiers *)

Fixpoint has_slash (s : string) : bool :=
  match s with
  | EmptyString => false
  | String c s' => Ascii.eqb c "/" || has_slash s'
  end.

(** The request of [getWallet], issued after [trace]. *)
Definition wallet_config rt env (userUuid walletId : string) (trace : Trace)
  : AxiosRequestConfig :=
  request_config rt env GET
    (apiUrl env +:+ "/core/v1/users/" +:+ userUuid +:+ "/wallets/" +:+ walletId)
    None None trace.

(** *** Rates, whatever the order of the supported codes *)

(** The constants of the fixture, the supported codes in another order and
    one of them twice. *)
Definition consts_reordered : Consts :=
  {| DEFAULT_APP_SCOPE := DEFAULT_APP_SCOPE Fixture.consts;
     ONBOARDING_APP_SCOPE := ONBOARDING_APP_SCOPE Fixture.consts;
     HOSTED_WALLET_TYPE := HOSTED_WALLET_TYPE Fixture.consts;
     PAYMENT_TYPE := PAYMENT_TYPE Fixture.consts;
     PRODUCTION_CLIENT_IDS := PRODUCTION_CLIENT_IDS Fixture.consts;
     SANDBOX_CLIENT_IDS := SANDBOX_CLIENT_IDS Fixture.consts;
     SUPPORTED_ASSET_CODES := ["JPY"; "USD"; "XRP"; "JPY"; "GBP"; "EUR"] |}.

(** *** The secret key *)

(** The headers of a request but for the signature: built from the access
    key, the timestamp and the options alone. *)
Definition unsigned_headers (access_key timestamp : string)
    (headersOptions : option HeadersOptions) : gmap string string :=
  let uuid := headersOptions ≫= managedUserUuid in
  let app := headersOptions ≫= cardAppId in
  let tok := headersOptions ≫= token in
  spread_if tok "Authorization" ("Bearer " +:+ default "" tok)
    (spread_if app "x-gatehub-card-app-id" (default "" app)
      (spread_if uuid "x-gatehub-managed-user-uuid" (default "" uuid)
        (<["x-gatehub-timestamp" := timestamp]>
          (<["x-gatehub-app-id" := access_key]>
            {["Content-Type" := "application/json"]})))).

(** The sandbox environment of the fixture under another secret. *)
Definition sandbox_other_secret : Env :=
  {| NODE_ENV := NODE_ENV Fixture.sandbox;
     GATEHUB_ACCESS_KEY := GATEHUB_ACCESS_KEY Fixture.sandbox;
     GATEHUB_SECRET_KEY := "another-secret";
     GATEHUB_CARD_APP_ID := GATEHUB_CARD_APP_ID Fixture.sandbox |}.

(** * Properties *)

(** ** The primitives against their test vectors *)

Example sha256_empty :
  sha256_hex "" = "e3b0c44298fc1c149afbf4c8996fb92427ae41e4649b934ca495991b7852b855"%string.
Proof. vm_compute. reflexivity. Qed.

Example sha256_abc :
  sha256_hex "abc" = "ba7816bf8f01cfea414140de5dae2223b00361a396177a9cb410ff61f20015ad"%string.
Proof. vm_compute. reflexivity. Qed.

Example sha256_two_blocks :
  sha256_hex "abcdbcdecdefdefgefghfghighijhijkijkljklmklmnlmnomnopnopq"
  = "248d6a61d20638b8e5c026930c3e6039a33ce45964ff2167f6ecedd419db06c1"%string.
Proof. vm_compute. reflexivity. Qed.

Example sha256_one_block_of_a :
  sha256_hex "aaaaaaaaaaaaaaaaaaaaaaaaaaaaaaaaaaaaaaaaaaaaaaaaaaaaaaaaaaaaaaaa"
  = "ffe054fe7ae0cb6dc65c3af9b61d5209f439851db43d0ba5997337df154668eb"%string.
Proof. vm_compute. reflexivity. Qed.

Example hmac_quick_brown_fox :
  createHmac_sha256_hex "key" "The quick brown fox jumps over the lazy dog"
  = "f7bc83f430538424b13298e6aa6fb143ef4d59a14946175997479dbc2d1a3cd8"%string.
Proof. vm_compute. reflexivity. Qed.

(** RFC 4231, test case 2. *)
Example hmac_rfc4231_2 :
  createHmac_sha256_hex "Jefe" "what do ya want for nothing?"
  = "5bdcc146bf60754e6a042426089575c75a003f089d2739839dec58b964ec3843"%string.
Proof. vm_compute. reflexivity. Qed.

(** RFC 4231, test case 6: a key longer than a block is hashed first. *)
Example hmac_rfc4231_6 :
  hex_of_bytes (HMAC.sha256 (repeat 170 131)
     (bytes_of_string "Test Using Larger Than Block-Size Key - Hash Key First"))
  = "60e431591ee0b67f0d8a26aacbf5b77f8e0bc6213728c5140546040f0ee37f54"%string.
Proof. vm_compute. reflexivity. Qed.

Example stringify_approval :
  JSON.stringify
    (JObject [("verified", JNumber 1); ("reasons", JArray []); ("customMessage", JBool false)])
  = "{" +:+ JSON.dquote +:+ "verified" +:+ JSON.dquote +:+ ":1,"
        +:+ JSON.dquote +:+ "reasons" +:+ JSON.dquote +:+ ":[],"
        +:+ JSON.dquote +:+ "customMessage" +:+ JSON.dquote +:+ ":false}".
Proof. vm_compute. reflexivity. Qed.

(** ** The client at work *)

Example production_connect_run :
  connectUserToGateway (Fixture.runtime Fixture.answering) Fixture.production
    "user-1" "gw-1" []
  = (Normal false,
     [connect_config (Fixture.runtime Fixture.answering) Fixture.production
        "user-1" "gw-1" []]).
Proof. vm_compute. reflexivity. Qed.

Example production_connect_url :
  url (connect_config (Fixture.runtime Fixture.answering) Fixture.production
         "user-1" "gw-1" [])
  = "https://api.gatehub.net/id/v1/users/user-1/hubs/gw-1".
Proof. vm_compute. reflexivity. Qed.

Example onboarding_url_run :
  (getIframeUrl (Fixture.runtime Fixture.answering) Fixture.consts Fixture.production
     "onboarding" "user-1" []).1
  = Normal (VString "https://onboarding.gatehub.net/?bearer=tkn-1").
Proof. vm_compute. reflexivity. Qed.

Example constructor_kind_run :
  getIframeUrl (Fixture.runtime Fixture.answering) Fixture.consts Fixture.sandbox
    "constructor" "user-1" []
  = (Normal (VStringObject "user-1"), []).
Proof. vm_compute. reflexivity. Qed.

Example unknown_kind_run :
  getIframeUrl (Fixture.runtime Fixture.answering) Fixture.consts Fixture.sandbox
    "payout" "user-1" []
  = (Throw (BadRequest "Invalid iframe type"), []).
Proof. vm_compute. reflexivity. Qed.

Example rates_run :
  match (getRates (Fixture.runtime Fixture.answering) Fixture.consts Fixture.sandbox
           "USD" []).1 with
  | Normal flatRates =>
      map (λ code, flatRates !! code) ["USD"; "EUR"; "GBP"; "XRP"; "JPY"; "counter"]
  | Throw _ => []
  end
  = [Some "1"; Some "0.92"; None; None; Some "149.5"; None].
Proof. vm_compute. reflexivity. Qed.

Example card_details_run :
  map (λ c, (method c, url c, headers c !! "Authorization",
             bool_decide (is_Some (headers c !! "x-gatehub-signature"))))
    (getCardDetails (Fixture.runtime Fixture.answering) Fixture.sandbox
       [("cardId", JString "card-1")] []).2
  = [(POST, "https://api.sandbox.gatehub.net/token/card-data", None, true);
     (GET, "https://api.sandbox.gatehub.net/v1/proxy/client-device/card-data",
      Some "Bearer card-tkn", true)].
Proof. vm_compute. reflexivity. Qed.

(** ** What [request] issues *)

Lemma request_issues rt env T method url body opts trace :
  (request rt env T method url body opts trace).2
  = trace ++ [request_config rt env method url body opts trace].
Proof.
  unfold request, request_config.
  destruct (axios rt T trace _) as [d|e]; [|destruct (instanceof_AxiosError e)];
    by destruct (log_payload rt body).
Qed.

Lemma truthy_default (body : option string) :
  truthy (Some (default "" body)) = truthy body.
Proof. by destruct body as [[]|]. Qed.

Lemma toSign_body_default timestamp method url body :
  toSign timestamp method url (Some (default "" body)) = toSign timestamp method url body.
Proof. unfold toSign. rewrite truthy_default. by destruct body. Qed.

Lemma toSign_canonical timestamp method url body :
  toSign timestamp method url body
  = match body with
    | Some (String c b) => canonical4 timestamp method url (String c b)
    | _ => canonical3 timestamp method url
    end.
Proof. by destruct body as [[]|]. Qed.

Lemma spread_if_lookup_ne cond key value obj k :
  key ≠ k → spread_if cond key value obj !! k = obj !! k.
Proof. intros. unfold spread_if. destruct (truthy cond); by simplify_map_eq. Qed.

Lemma spread_if_lookup cond key value obj :
  spread_if cond key value obj !! key = if truthy cond then Some value else obj !! key.
Proof. unfold spread_if. destruct (truthy cond); by simplify_map_eq. Qed.

Lemma headers_signature env timestamp method url body opts :
  getRequestHeaders env timestamp method url body opts !! "x-gatehub-signature"
  = Some (getSignature env timestamp method url body).
Proof.
  unfold getRequestHeaders. rewrite !spread_if_lookup_ne by done. by simplify_map_eq.
Qed.

(** ** The signed string (C1) *)

(** C1, as the code has it.  Every call of [request] issues one request,
    whose signature header is the HMAC-SHA256, under the secret key, of
    [timestamp|METHOD|url|body] when the body is a non-empty string and of
    [timestamp|METHOD|url], with no trailing delimiter, when the body is
    absent or is the empty string. *)
Theorem request_signs_canonical_string rt env T method url body opts trace :
  let timestamp := pretty (Date_now rt trace) in
  ∃ config,
    (request rt env T method url body opts trace).2 = trace ++ [config]
    ∧ headers config !! "x-gatehub-signature"
      = Some (createHmac_sha256_hex (GATEHUB_SECRET_KEY env)
                match body with
                | Some b =>
                    if decide (b = "") then canonical3 timestamp method url
                    else canonical4 timestamp method url b
                | None => canonical3 timestamp method url
                end).
Proof.
  intros timestamp. exists (request_config rt env method url body opts trace).
  split; [apply request_issues|].
  unfold request_config; cbn [headers].
  rewrite headers_signature. unfold getSignature.
  rewrite toSign_body_default, toSign_canonical.
  by destruct body as [[]|].
Qed.

(** C1 as the specification states it fails: a body that is supplied but
    empty is not signed as [timestamp|METHOD|url|], it is signed as
    [timestamp|METHOD|url], like an absent one. *)
Lemma supplied_empty_body_signed_as_absent :
  ¬ (∀ rt env T method url b opts trace,
       ∃ config,
         (request rt env T method url (Some b) opts trace).2 = trace ++ [config]
         ∧ headers config !! "x-gatehub-signature"
           = Some (createHmac_sha256_hex (GATEHUB_SECRET_KEY env)
                     (canonical4 (pretty (Date_now rt trace)) method url b))).
Proof.
  intros claim.
  destruct (claim (Fixture.runtime Fixture.answering) Fixture.sandbox IPassThrough POST
              "https://api.sandbox.gatehub.net/core/v1/transactions" "" None [])
    as (config & Htrace & Hsig).
  rewrite request_issues in Htrace. apply app_inv_head in Htrace.
  injection Htrace as <-.
  unfold request_config in Hsig; cbn [headers] in Hsig.
  rewrite headers_signature in Hsig.
  vm_compute in Hsig. discriminate Hsig.
Qed.

(** ** The header set (C8) *)

Lemma spread_if_dom cond key value obj (names : gset string) :
  key ∈ names → dom obj ⊆ names → dom (spread_if cond key value obj) ⊆ names.
Proof. unfold spread_if. destruct (truthy cond); set_solver. Qed.

Lemma getRequestHeaders_dom env timestamp method url body opts :
  dom (getRequestHeaders env timestamp method url body opts) ⊆ header_names.
Proof.
  unfold getRequestHeaders, header_names.
  repeat (apply spread_if_dom; [set_solver|]). set_solver.
Qed.

Lemma headers_content_type env timestamp method url body opts :
  getRequestHeaders env timestamp method url body opts !! "Content-Type"
  = Some "application/json".
Proof.
  unfold getRequestHeaders. rewrite !spread_if_lookup_ne by done. by simplify_map_eq.
Qed.

Lemma headers_app_id env timestamp method url body opts :
  getRequestHeaders env timestamp method url body opts !! "x-gatehub-app-id"
  = Some (GATEHUB_ACCESS_KEY env).
Proof.
  unfold getRequestHeaders. rewrite !spread_if_lookup_ne by done. by simplify_map_eq.
Qed.

Lemma headers_timestamp env timestamp method url body opts :
  getRequestHeaders env timestamp method url body opts !! "x-gatehub-timestamp"
  = Some timestamp.
Proof.
  unfold getRequestHeaders. rewrite !spread_if_lookup_ne by done. by simplify_map_eq.
Qed.

Lemma headers_managed_user env timestamp method url body opts :
  getRequestHeaders env timestamp method url body opts !! "x-gatehub-managed-user-uuid"
  = given (opts ≫= managedUserUuid).
Proof.
  unfold getRequestHeaders, given.
  rewrite !spread_if_lookup_ne, spread_if_lookup by done.
  destruct (opts ≫= managedUserUuid) as [[]|]; by simplify_map_eq.
Qed.

Lemma headers_authorization env timestamp method url body opts :
  getRequestHeaders env timestamp method url body opts !! "Authorization"
  = String.append "Bearer " <$> given (opts ≫= token).
Proof.
  unfold getRequestHeaders, given.
  rewrite spread_if_lookup, !spread_if_lookup_ne by done.
  destruct (opts ≫= token) as [[]|]; by simplify_map_eq.
Qed.

Lemma headers_card_app env timestamp method url body opts :
  getRequestHeaders env timestamp method url body opts !! "x-gatehub-card-app-id"
  = given (opts ≫= cardAppId).
Proof.
  unfold getRequestHeaders, given.
  rewrite spread_if_lookup_ne, spread_if_lookup by done.
  rewrite spread_if_lookup_ne by done.
  destruct (opts ≫= cardAppId) as [[]|]; by simplify_map_eq.
Qed.

(** C8, as the code has it.  The header set always holds the content type,
    the application identifier, the timestamp and the signature, and nothing
    beyond the seven known names; each of the managed-user, card-application
    and authorization headers is there exactly when its value is supplied as
    a non-empty string, and then carries it; and any of the eight
    combinations of the three can be had on one request. *)
Theorem getRequestHeaders_contents env timestamp method url body opts :
  let h := getRequestHeaders env timestamp method url body opts in
  h !! "Content-Type" = Some "application/json"
  ∧ h !! "x-gatehub-app-id" = Some (GATEHUB_ACCESS_KEY env)
  ∧ h !! "x-gatehub-timestamp" = Some timestamp
  ∧ h !! "x-gatehub-signature" = Some (getSignature env timestamp method url body)
  ∧ h !! "x-gatehub-managed-user-uuid" = given (opts ≫= managedUserUuid)
  ∧ h !! "x-gatehub-card-app-id" = given (opts ≫= cardAppId)
  ∧ h !! "Authorization" = String.append "Bearer " <$> given (opts ≫= token)
  ∧ dom h ⊆ header_names
  ∧ ∀ uuid app tok : bool,
      let h' := getRequestHeaders env timestamp method url body
                  (Some (options_for uuid app tok)) in
      bool_decide (is_Some (h' !! "x-gatehub-managed-user-uuid")) = uuid
      ∧ bool_decide (is_Some (h' !! "x-gatehub-card-app-id")) = app
      ∧ bool_decide (is_Some (h' !! "Authorization")) = tok.
Proof.
  intros h. subst h.
  rewrite headers_content_type, headers_app_id, headers_timestamp, headers_signature,
    headers_managed_user, headers_card_app, headers_authorization.
  do 7 (split; [done|]). split; [apply getRequestHeaders_dom|].
  intros uuid app tok h'. subst h'.
  rewrite headers_managed_user, headers_card_app, headers_authorization.
  by destruct uuid, app, tok.
Qed.

(** C8 as the specification states it fails: a value that is supplied but
    empty does not give its header. *)
Lemma supplied_empty_value_gives_no_header :
  ¬ (∀ env timestamp method url body opts,
       is_Some (getRequestHeaders env timestamp method url body opts
                  !! "x-gatehub-managed-user-uuid")
       ↔ is_Some (opts ≫= managedUserUuid)).
Proof.
  intros claim.
  destruct (claim Fixture.sandbox "1700000000000" POST
              "https://api.sandbox.gatehub.net/core/v1/users//wallets" (Some "{}")
              (Some {| managedUserUuid := Some ""; token := None; cardAppId := None |}))
    as [_ Habsent].
  destruct Habsent as [v Hv]; [by eexists|].
  vm_compute in Hv. discriminate Hv.
Qed.

(** ** Determinism and collisions of the signature (C9) *)

Lemma append_cons (c : ascii) (a b : string) : String c a +:+ b = String c (a +:+ b).
Proof. reflexivity. Qed.

Lemma append_empty (b : string) : "" +:+ b = b.
Proof. reflexivity. Qed.

Lemma has_delimiter_app (a x : string) : has_delimiter (a +:+ "|" +:+ x) = true.
Proof.
  induction a as [|c a IH]; [done|].
  rewrite append_cons. cbn. rewrite IH. apply orb_true_r.
Qed.

Lemma delimiter_split (a b x y : string) :
  has_delimiter a = false → has_delimiter b = false →
  a +:+ "|" +:+ x = b +:+ "|" +:+ y → a = b ∧ x = y.
Proof.
  revert b. induction a as [|c a IH]; intros [|d b] Ha Hb Heq;
    rewrite ?append_cons, ?append_empty in Heq; cbn in Ha, Hb.
  - by injection Heq as ->.
  - injection Heq as <- _. by rewrite Ascii.eqb_refl in Hb.
  - injection Heq as -> _. by rewrite Ascii.eqb_refl in Ha.
  - injection Heq as -> Heq.
    apply orb_false_elim in Ha as [_ Ha]. apply orb_false_elim in Hb as [_ Hb].
    by destruct (IH b Ha Hb Heq) as [-> ->].
Qed.

Lemma method_string_inj (m1 m2 : HTTP_METHODS) :
  method_string m1 = method_string m2 → m1 = m2.
Proof. by destruct m1, m2. Qed.

Lemma method_string_plain (m : HTTP_METHODS) : has_delimiter (method_string m) = false.
Proof. by destruct m. Qed.

(** The signing string read as fields: the timestamp, the method, and the
    rest, which is the URL alone or the URL, the delimiter and the body. *)
Lemma canonical_split ts1 m1 r1 ts2 m2 r2 :
  has_delimiter ts1 = false → has_delimiter ts2 = false →
  ts1 +:+ "|" +:+ method_string m1 +:+ "|" +:+ r1
  = ts2 +:+ "|" +:+ method_string m2 +:+ "|" +:+ r2 →
  ts1 = ts2 ∧ m1 = m2 ∧ r1 = r2.
Proof.
  intros H1 H2 Heq.
  apply delimiter_split in Heq as [-> Heq]; [|done..].
  apply delimiter_split in Heq as [Hm ->]; auto using method_string_plain.
  by apply method_string_inj in Hm as ->.
Qed.

Lemma toSign_inj ts1 m1 u1 b1 ts2 m2 u2 b2 :
  has_delimiter ts1 = false → has_delimiter ts2 = false →
  has_delimiter u1 = false → has_delimiter u2 = false →
  toSign ts1 m1 u1 b1 = toSign ts2 m2 u2 b2 →
  ts1 = ts2 ∧ m1 = m2 ∧ u1 = u2 ∧ signed_body b1 = signed_body b2.
Proof.
  intros Ht1 Ht2 Hu1 Hu2. rewrite !toSign_canonical.
  destruct b1 as [[|c1 b1]|], b2 as [[|c2 b2]|]; cbn [signed_body truthy];
    unfold canonical3, canonical4; intros Heq;
    apply canonical_split in Heq as (-> & -> & Heq); try done.
  all: try by subst.
  all: try by rewrite <- Heq, has_delimiter_app in Hu2.
  all: try by rewrite Heq, has_delimiter_app in Hu1.
  by apply delimiter_split in Heq as [-> ->].
Qed.

Lemma toSign_signing_string timestamp method url body :
  toSign timestamp method url body = signing_string timestamp method url body.
Proof.
  rewrite toSign_canonical. unfold signing_string, signed_body.
  by destruct body as [[|c b]|].
Qed.

(** C9, as the code has it.  The signature is the HMAC-SHA256, under the
    secret key and in hexadecimal, of the signing string; so for a fixed
    secret key identical inputs give identical signatures.  Of two tuples
    whose timestamps and URLs are free of the delimiter [|], and which
    differ in a component, an absent body and an empty body counting as the
    same, the signing strings differ; so the signatures differ unless
    HMAC-SHA256 itself collides on these two strings. *)
Theorem getSignature_deterministic_and_separating env ts1 m1 u1 b1 ts2 m2 u2 b2 :
  let hmac := createHmac_sha256_hex (GATEHUB_SECRET_KEY env) in
  (getSignature env ts1 m1 u1 b1 = hmac (signing_string ts1 m1 u1 b1)
   ∧ getSignature env ts2 m2 u2 b2 = hmac (signing_string ts2 m2 u2 b2))
  ∧ (ts1 = ts2 → m1 = m2 → u1 = u2 → b1 = b2 →
     getSignature env ts1 m1 u1 b1 = getSignature env ts2 m2 u2 b2)
  ∧ (has_delimiter ts1 = false → has_delimiter ts2 = false →
     has_delimiter u1 = false → has_delimiter u2 = false →
     (ts1, m1, u1, signed_body b1) ≠ (ts2, m2, u2, signed_body b2) →
     signing_string ts1 m1 u1 b1 ≠ signing_string ts2 m2 u2 b2
     ∧ ((hmac (signing_string ts1 m1 u1 b1) = hmac (signing_string ts2 m2 u2 b2) →
         signing_string ts1 m1 u1 b1 = signing_string ts2 m2 u2 b2) →
        getSignature env ts1 m1 u1 b1 ≠ getSignature env ts2 m2 u2 b2)).
Proof.
  cbv zeta. unfold getSignature. rewrite !toSign_signing_string.
  split; [done|]. split; [by intros -> -> -> ->|].
  intros Ht1 Ht2 Hu1 Hu2 Hne.
  assert (Hsign : signing_string ts1 m1 u1 b1 ≠ signing_string ts2 m2 u2 b2).
  { rewrite <- !toSign_signing_string. intros Heq. apply Hne.
    by destruct (toSign_inj _ _ _ _ _ _ _ _ Ht1 Ht2 Hu1 Hu2 Heq) as (-> & -> & -> & ->). }
  split; [done|]. intros Hfree Heq. by apply Hsign, Hfree.
Qed.

(** The same request under two methods is signed differently. *)
Lemma getSignature_separates_methods :
  getSignature Fixture.sandbox "1700000000000" GET
    "https://api.sandbox.gatehub.net/core/v1/transactions" None
  ≠ getSignature Fixture.sandbox "1700000000000" POST
      "https://api.sandbox.gatehub.net/core/v1/transactions" None.
Proof.
  apply (proj2 (proj2 (getSignature_deterministic_and_separating Fixture.sandbox
                  "1700000000000" GET
                  "https://api.sandbox.gatehub.net/core/v1/transactions" None
                  "1700000000000" POST
                  "https://api.sandbox.gatehub.net/core/v1/transactions" None)));
    [reflexivity | reflexivity | reflexivity | reflexivity | discriminate |].
  vm_compute. discriminate.
Defined.

(** C9 as the specification states it fails: the signing string does not
    escape its delimiter, so a URL that contains [|] and no body is signed
    like the URL before the [|] with the rest as the body. *)
Lemma delimiter_in_url_collides :
  ¬ (∀ env ts1 m1 u1 b1 ts2 m2 u2 b2,
       (ts1, m1, u1, b1) ≠ (ts2, m2, u2, b2) →
       getSignature env ts1 m1 u1 b1 ≠ getSignature env ts2 m2 u2 b2).
Proof.
  intros claim.
  apply (claim Fixture.sandbox
           "1700000000000" GET "https://api.sandbox.gatehub.net/id/v1/users/a|b" None
           "1700000000000" GET "https://api.sandbox.gatehub.net/id/v1/users/a" (Some "b"));
    [discriminate|].
  unfold getSignature. f_equal.
Qed.

(** ** Outcomes of [request] *)

Lemma log_payload_absent rt : is_Some (log_payload rt None).
Proof. by eexists. Qed.

Lemma log_payload_stringify rt v : is_Some (log_payload rt (Some (JSON.stringify v))).
Proof.
  unfold log_payload. destruct (truthy _); [|by eexists].
  apply JSON_parse_stringify.
Qed.

Lemma request_resolved rt env T method url body opts trace d :
  axios rt T trace (request_config rt env method url body opts trace) = Resolved d →
  is_Some (log_payload rt body) →
  request rt env T method url body opts trace
  = (Normal d, trace ++ [request_config rt env method url body opts trace]).
Proof.
  intros Hres [payload Hlog]. unfold request.
  change (axios rt T trace _) with
    (axios rt T trace (request_config rt env method url body opts trace)).
  by rewrite Hres, Hlog.
Qed.

Lemma request_rejected rt env T method url body opts trace e :
  axios rt T trace (request_config rt env method url body opts trace) = Rejected e →
  ∃ e', request rt env T method url body opts trace
        = (Throw e', trace ++ [request_config rt env method url body opts trace]).
Proof.
  intros Hres. unfold request.
  change (axios rt T trace _) with
    (axios rt T trace (request_config rt env method url body opts trace)).
  rewrite Hres.
  destruct (instanceof_AxiosError e), (log_payload rt body); by eexists.
Qed.

(** A rejection is rethrown as it is when the payload for the logger can be
    built. *)
Lemma request_rejected_as_is rt env T method url body opts trace e :
  axios rt T trace (request_config rt env method url body opts trace) = Rejected e →
  is_Some (log_payload rt body) →
  request rt env T method url body opts trace
  = (Throw e, trace ++ [request_config rt env method url body opts trace]).
Proof.
  intros Hres [payload Hlog]. unfold request.
  change (axios rt T trace _) with
    (axios rt T trace (request_config rt env method url body opts trace)).
  rewrite Hres, Hlog. by destruct (instanceof_AxiosError e).
Qed.

Lemma bind_normal {A B} (m : Async A) (k : A → Async B) trace a trace' :
  m trace = (Normal a, trace') → (m ≫= k) trace = k a trace'.
Proof. intros H. unfold mbind, Async_bind. by rewrite H. Qed.

Lemma bind_throw {A B} (m : Async A) (k : A → Async B) trace e trace' :
  m trace = (Throw e, trace') → (m ≫= k) trace = (Throw e, trace').
Proof. intros H. unfold mbind, Async_bind. by rewrite H. Qed.

(** [await this.request<T>(...)] when the provider answers by [H] and the
    payload for the logger parses by [tac]. *)
Ltac await_resolved rt env T H tac :=
  erewrite bind_normal by (apply (request_resolved rt env T); [exact H|tac]).

(** ** Connecting a user to a gateway (C2) *)

Lemma approval_text_stringify : JSON.stringify approveUserToGateway_body = approval_text.
Proof. vm_compute. reflexivity. Qed.

(** C2, as the code has it.  In a sandbox environment, when the connect
    POST and the approve PUT both succeed, [connectUserToGateway] performs
    exactly these two calls, in this order, the second with the body
    verified=1, no reasons, no custom message, and returns [true].  In a
    production environment it performs exactly one call, the connect POST,
    whatever its outcome, and returns [false] when it succeeds.  A connect
    POST that the provider rejects is the only call, and what is thrown is
    that very rejection; in a sandbox an approve PUT that the provider
    rejects is the second and last call, and what is thrown is that very
    rejection. *)
Theorem connectUserToGateway_calls rt env uuid gateway trace :
  let c1 := connect_config rt env uuid gateway trace in
  let c2 := approve_config rt env uuid gateway (trace ++ [c1]) in
  (isProduction env = false →
   ∀ d1 d2,
     axios rt IPassThrough trace c1 = Resolved d1 →
     axios rt IPassThrough (trace ++ [c1]) c2 = Resolved d2 →
     connectUserToGateway rt env uuid gateway trace = (Normal true, trace ++ [c1; c2]))
  ∧ (isProduction env = true →
     (connectUserToGateway rt env uuid gateway trace).2 = trace ++ [c1]
     ∧ ∀ d1, axios rt IPassThrough trace c1 = Resolved d1 →
         connectUserToGateway rt env uuid gateway trace = (Normal false, trace ++ [c1]))
  ∧ (∀ e, axios rt IPassThrough trace c1 = Rejected e →
       connectUserToGateway rt env uuid gateway trace = (Throw e, trace ++ [c1]))
  ∧ (isProduction env = false →
     ∀ d1 e,
       axios rt IPassThrough trace c1 = Resolved d1 →
       axios rt IPassThrough (trace ++ [c1]) c2 = Rejected e →
       connectUserToGateway rt env uuid gateway trace = (Throw e, trace ++ [c1; c2]))
  ∧ (method c1 = POST
     ∧ url c1 = apiUrl env +:+ "/id/v1/users/" +:+ uuid +:+ "/hubs/" +:+ gateway
     ∧ data c1 = None
     ∧ method c2 = PUT
     ∧ url c2 = apiUrl env +:+ "/id/v1/hubs/" +:+ gateway +:+ "/users/" +:+ uuid
     ∧ data c2 = Some approval_text).
Proof.
  intros c1 c2. subst c1 c2. unfold connect_config, approve_config.
  unfold connectUserToGateway, approveUserToGateway.
  rewrite approval_text_stringify.
  assert (Hparse : is_Some (log_payload rt (Some approval_text))).
  { rewrite <- approval_text_stringify. apply log_payload_stringify. }
  split; [|split; [|split; [|split; [|done]]]].
  - intros Hsandbox d1 d2 H1 H2.
    await_resolved rt env IPassThrough H1 ltac:(apply log_payload_absent).
    rewrite Hsandbox; cbn [negb].
    await_resolved rt env IPassThrough H2 ltac:(exact Hparse).
    by rewrite <- app_assoc.
  - intros Hprod. split.
    + unfold mbind, Async_bind.
      pose proof (request_issues rt env IPassThrough POST
        (apiUrl env +:+ "/id/v1/users/" +:+ uuid +:+ "/hubs/" +:+ gateway) None
        (Some (only_managedUserUuid uuid)) trace) as Hissue.
      destruct (request _ _ _ _ _ _ _ _) as [[d|e] trace']; cbn in Hissue; subst trace';
        by rewrite ?Hprod.
    + intros d1 H1.
      await_resolved rt env IPassThrough H1 ltac:(apply log_payload_absent).
      by rewrite Hprod.
  - intros e H1.
    apply (request_rejected_as_is rt env IPassThrough) in H1;
      [|apply log_payload_absent].
    by erewrite bind_throw by exact H1.
  - intros Hsandbox d1 e H1 H2.
    await_resolved rt env IPassThrough H1 ltac:(apply log_payload_absent).
    rewrite Hsandbox; cbn [negb].
    apply (request_rejected_as_is rt env IPassThrough) in H2; [|exact Hparse].
    erewrite bind_throw by exact H2. by rewrite <- app_assoc.
Qed.

(** A sandbox client against a provider that answers: two calls, [true]. *)
Lemma connectUserToGateway_sandbox_run :
  connectUserToGateway (Fixture.runtime Fixture.answering) Fixture.sandbox "user-1" "gw-1" []
  = (Normal true,
     [] ++ [connect_config (Fixture.runtime Fixture.answering) Fixture.sandbox
              "user-1" "gw-1" [];
            approve_config (Fixture.runtime Fixture.answering) Fixture.sandbox
              "user-1" "gw-1"
              ([] ++ [connect_config (Fixture.runtime Fixture.answering) Fixture.sandbox
                        "user-1" "gw-1" []])]).
Proof.
  apply (proj1 (connectUserToGateway_calls (Fixture.runtime Fixture.answering)
                  Fixture.sandbox "user-1" "gw-1" [])
           eq_refl (JObject []) (JObject []));
    reflexivity.
Defined.

(** C2 as the specification states it fails: when the provider rejects the
    connect POST, a sandbox client performs one call and returns nothing. *)
Lemma failed_connect_is_one_call_and_no_result :
  ¬ (∀ rt env uuid gateway trace,
       isProduction env = false →
       ∃ c1 c2,
         connectUserToGateway rt env uuid gateway trace = (Normal true, trace ++ [c1; c2])).
Proof.
  intros claim.
  destruct (claim (Fixture.runtime Fixture.failing) Fixture.sandbox "user-1" "gw-1" []
              eq_refl) as (c1 & c2 & Hrun).
  vm_compute in Hrun. discriminate Hrun.
Qed.

(** ** The two hops of the card details (C3) *)

(** C3.  When the response to the token-issuance POST carries no token, or
    an empty one, [getCardDetails] throws its own error and has issued that
    POST alone.  In every run the calls issued are either the POST alone or
    the POST, answered with a non-empty token, followed by the card-data GET
    that carries this token. *)
Theorem getCardDetails_token_gate rt env requestBody trace :
  let c1 := card_token_config rt env requestBody trace in
  (∀ tok, axios rt ILinksResponse trace c1 = Resolved tok → truthy tok = false →
     getCardDetails rt env requestBody trace
     = (Throw (Error "Failed to obtain token for card data retrieval"), trace ++ [c1]))
  ∧ ((getCardDetails rt env requestBody trace).2 = trace ++ [c1]
     ∨ ∃ tok, axios rt ILinksResponse trace c1 = Resolved (Some tok)
         ∧ tok ≠ ""
         ∧ (getCardDetails rt env requestBody trace).2
           = trace ++ [c1; card_data_config rt env tok (trace ++ [c1])])
  ∧ (method c1 = POST
     ∧ url c1 = apiUrl env +:+ "/token/card-data"
     ∧ ∀ tok after,
         method (card_data_config rt env tok after) = GET
         ∧ url (card_data_config rt env tok after)
           = apiUrl env +:+ "/v1/proxy/client-device/card-data").
Proof.
  intros c1. subst c1. unfold card_token_config, card_data_config, getCardDetails.
  split; [|split; [|done]].
  - intros tok Hres Hfalsy.
    await_resolved rt env ILinksResponse Hres ltac:(apply log_payload_stringify).
    by rewrite Hfalsy.
  - destruct (axios rt ILinksResponse trace
               (request_config rt env POST (apiUrl env +:+ "/token/card-data")
                  (Some (JSON.stringify (JObject requestBody)))
                  (Some (only_cardAppId (GATEHUB_CARD_APP_ID env))) trace))
      as [tok|e] eqn:Hres.
    + await_resolved rt env ILinksResponse Hres ltac:(apply log_payload_stringify).
      destruct tok as [[|c tok]|]; cbn [truthy negb]; [by left| |by left].
      right. exists (String c tok). split; [done|]. split; [done|].
      rewrite (request_issues rt env IPassThrough). by rewrite <- app_assoc.
    + apply request_rejected in Hres as [e' He'].
      left. by erewrite bind_throw by exact He'.
Qed.

(** A provider whose first hop carries no token: one call, the error. *)
Lemma getCardDetails_tokenless_run :
  getCardDetails (Fixture.runtime Fixture.tokenless) Fixture.sandbox
    [("cardId", JString "card-1")] []
  = (Throw (Error "Failed to obtain token for card data retrieval"),
     [] ++ [card_token_config (Fixture.runtime Fixture.tokenless) Fixture.sandbox
              [("cardId", JString "card-1")] []]).
Proof.
  apply (proj1 (getCardDetails_token_gate (Fixture.runtime Fixture.tokenless)
                  Fixture.sandbox [("cardId", JString "card-1")] []) None);
    reflexivity.
Defined.

(** ** Authentication of every call (C4) *)

Lemma issues_ret {A} P (a : A) : issues P (mret a).
Proof. intros trace. exists []. by rewrite app_nil_r. Qed.

Lemma issues_throw {A} P e : issues P (throw (A:=A) e).
Proof. intros trace. exists []. by rewrite app_nil_r. Qed.

Lemma issues_bind {A B} P (m : Async A) (k : A → Async B) :
  issues P m → (∀ a, issues P (k a)) → issues P (m ≫= k).
Proof.
  intros Hm Hk trace. destruct (Hm trace) as (new & Htrace & Hnew).
  unfold mbind, Async_bind. destruct (m trace) as [[a|e] trace']; cbn in Htrace; subst.
  - destruct (Hk a (trace ++ new)) as (new' & -> & Hnew').
    exists (new ++ new'). by rewrite app_assoc, Forall_app.
  - by exists new.
Qed.

Lemma issues_request rt env T method url body opts (P : AxiosRequestConfig → Prop) :
  (∀ trace, P (request_config rt env method url body opts trace)) →
  issues P (request rt env T method url body opts).
Proof.
  intros HP trace. exists [request_config rt env method url body opts trace].
  split; [apply request_issues|]. by apply Forall_singleton.
Qed.

Lemma getSignature_data env timestamp method url body :
  getSignature env timestamp method url (Some (default "" body))
  = getSignature env timestamp method url (if truthy body then body else None).
Proof. unfold getSignature, toSign. by destruct body as [[]|]. Qed.

Lemma request_config_signed rt env m u body opts trace :
  signed env (request_config rt env m u body opts trace).
Proof.
  exists (pretty (Date_now rt trace)). unfold request_config; cbn [headers method url data].
  rewrite headers_timestamp, headers_app_id, headers_signature.
  by rewrite <- getSignature_data.
Qed.

Lemma request_config_bearer rt env m u body opts trace :
  bearer (request_config rt env m u body opts trace) ↔ truthy (opts ≫= token) = true.
Proof.
  unfold bearer, request_config; cbn [headers].
  rewrite headers_authorization. unfold given.
  destruct (opts ≫= token) as [[|c t]|]; cbn; (split; [|done]); try done.
  all: by intros [? [=]].
Qed.

Lemma issues_signed_only rt env T m u body opts :
  opts ≫= token = None → issues (signed_only env) (request rt env T m u body opts).
Proof.
  intros Htok. apply issues_request. intros trace. split.
  - apply request_config_signed.
  - intros Hb%request_config_bearer. rewrite Htok in Hb. by cbn in Hb.
Qed.

Lemma issues_mono {A} (P Q : AxiosRequestConfig → Prop) (m : Async A) :
  (∀ c, P c → Q c) → issues P m → issues Q m.
Proof.
  intros HPQ Hm trace. destruct (Hm trace) as (new & ? & ?).
  exists new. split; [done|]. by eapply Forall_impl.
Qed.

Lemma issues_ignore {A} P (m : Async A) : issues P m → issues P (ignore m).
Proof. intros Hm. apply issues_bind; [done|]. intros. apply issues_ret. Qed.

Lemma issues_getIframeAuthorizationToken rt env clientId scope uuid :
  issues (signed_only env) (getIframeAuthorizationToken rt env clientId scope uuid).
Proof.
  apply issues_bind; [by apply (issues_signed_only rt env ITokenResponse)|].
  intros. apply issues_ret.
Qed.

Lemma issues_handler rt consts env type handler uuid :
  iframeMappings rt consts env !! type = Some handler →
  issues (signed_only env) (handler uuid).
Proof.
  intros Hin%elem_of_list_to_map_2.
  unfold iframeMappings_entries in Hin.
  rewrite !elem_of_cons, elem_of_nil in Hin.
  destruct Hin as [[= -> ->]|[[= -> ->]|[[= -> ->]|[[= -> ->]|[]]]]];
    (apply issues_bind; [apply issues_getIframeAuthorizationToken|];
     intros; apply issues_ret).
Qed.

Lemma issues_getIframeUrl rt consts env type uuid :
  issues (signed_only env) (getIframeUrl rt consts env type uuid).
Proof.
  unfold getIframeUrl, obj_get.
  destruct (iframeMappings rt consts env !! type) as [handler|] eqn:Hget.
  - apply issues_bind; [by eapply issues_handler|]. intros. apply issues_ret.
  - case_bool_decide; [|apply issues_throw].
    intros trace. exists []. by rewrite app_nil_r.
Qed.

Lemma issues_connectUserToGateway rt env uuid gateway :
  issues (signed_only env) (connectUserToGateway rt env uuid gateway).
Proof.
  apply issues_bind; [by apply (issues_signed_only rt env IPassThrough)|]. intros _.
  destruct (negb _); [|apply issues_ret].
  apply issues_bind; [|intros; apply issues_ret].
  unfold approveUserToGateway. by apply (issues_signed_only rt env IPassThrough).
Qed.

Lemma issues_getRates rt consts env base :
  issues (signed_only env) (getRates rt consts env base).
Proof.
  apply issues_bind; [by apply (issues_signed_only rt env IRatesResponse)|].
  intros. apply issues_ret.
Qed.

Lemma issues_getCardDetails rt env requestBody :
  issues (card_hop env) (getCardDetails rt env requestBody).
Proof.
  apply issues_bind.
  - apply (issues_request rt env ILinksResponse).
    intros trace. split; [apply request_config_signed|].
    rewrite request_config_bearer. cbn. split; [done|by intros []].
  - intros tok. cbv beta zeta.
    destruct (truthy tok) eqn:Htok; cbn [negb]; [|apply issues_throw].
    apply (issues_request rt env IPassThrough).
    intros trace. split; [apply request_config_signed|].
    rewrite request_config_bearer. by cbn.
Qed.

(** C4, as the code has it.  Every request a public method issues carries
    the HMAC signature header set, computed over that request; a request
    carries a bearer token as well exactly when it is the card-data GET of
    [getCardDetails].  That request carries both. *)
Theorem every_call_is_signed rt consts env call trace :
  ∃ new,
    (perform rt consts env call trace).2 = trace ++ new
    ∧ Forall (λ c, signed env c ∧ (bearer c ↔ is_card_data_fetch env call c)) new.
Proof.
  revert trace.
  change (issues (λ c, signed env c ∧ (bearer c ↔ is_card_data_fetch env call c))
            (perform rt consts env call)).
  assert (Hplain : ∀ A (m : Async A),
            (∀ requestBody, call ≠ call_getCardDetails requestBody) →
            issues (signed_only env) m →
            issues (λ c, signed env c ∧ (bearer c ↔ is_card_data_fetch env call c))
              (ignore m)).
  { intros A m Hcall Hm. apply issues_ignore. eapply issues_mono; [|exact Hm].
    intros c [Hsigned Hbearer]. split; [done|]. split; [done|].
    intros [[requestBody Heq] _]. by apply Hcall in Heq. }
  destruct call; cbn [perform];
    try (apply Hplain; [done|]);
    try (by apply (issues_signed_only rt env IPassThrough));
    try (apply issues_bind; [apply issues_getIframeAuthorizationToken|];
         intros; apply issues_ret).
  - apply issues_getIframeUrl.
  - apply issues_getIframeAuthorizationToken.
  - apply issues_connectUserToGateway.
  - apply issues_getRates.
  - apply issues_ignore. eapply issues_mono; [|apply issues_getCardDetails].
    intros c [Hsigned Hbearer]. split; [done|]. rewrite Hbearer.
    unfold is_card_data_fetch. naive_solver.
Qed.

(** C4 as the specification states it fails: the two forms are not
    exclusive, the card-data GET carries the signature headers and the
    bearer token. *)
Lemma card_data_fetch_is_signed_and_bears_token :
  ¬ (∀ rt consts env call trace new,
       (perform rt consts env call trace).2 = trace ++ new →
       Forall (λ c, ¬ (signed env c ∧ bearer c)) new).
Proof.
  intros claim.
  pose (rt := Fixture.runtime Fixture.answering).
  pose (c1 := card_token_config rt Fixture.sandbox [("cardId", JString "card-1")] []).
  pose (c2 := card_data_config rt Fixture.sandbox "card-tkn" [c1]).
  assert (Hrun : (perform rt Fixture.consts Fixture.sandbox
                    (call_getCardDetails [("cardId", JString "card-1")]) []).2
                 = [] ++ [c1; c2]) by (vm_compute; reflexivity).
  apply claim in Hrun. apply Forall_cons in Hrun as [_ Hrun].
  apply Forall_cons in Hrun as [Hboth _]. apply Hboth. split.
  - apply request_config_signed.
  - by apply request_config_bearer.
Qed.

(** ** Rates (C5, C10) *)

Lemma getRates_step_plain rt response flatRates code :
  code ∉ Object_prototype →
  getRates_step rt response flatRates code
  = match rate_entry rt response code with
    | Some n => <[code := n]> flatRates
    | None => flatRates
    end.
Proof.
  intros Hplain. unfold getRates_step, obj_get, rate_entry.
  destruct (response !! code) as [[rate|s]|]; cbn.
  - unfold obj_set. case_bool_decide as Hproto; [|done].
    subst code. exfalso. apply Hplain. set_solver.
  - by rewrite andb_false_r.
  - by rewrite bool_decide_eq_false_2.
Qed.

Lemma getRates_fold_lookup rt response codes flatRates code :
  Forall (λ c, c ∉ Object_prototype) codes →
  foldl (getRates_step rt response) flatRates codes !! code
  = if decide (code ∈ codes)
    then match rate_entry rt response code with
         | Some n => Some n
         | None => flatRates !! code
         end
    else flatRates !! code.
Proof.
  intros Hplain. revert flatRates.
  induction Hplain as [|c codes Hc _ IH]; intros flatRates; [done|].
  cbn [foldl]. rewrite IH, getRates_step_plain by done.
  destruct (decide (code = c)) as [->|Hne].
  - rewrite (decide_True (P := c ∈ c :: codes)) by set_solver.
    destruct (rate_entry rt response c) as [n|] eqn:Hentry.
    + by destruct (decide (c ∈ codes)); simplify_map_eq.
    + by destruct (decide (c ∈ codes)).
  - assert (Hother : ∀ m : gmap string (JSNumber rt),
              match rate_entry rt response c with
              | Some n => <[c := n]> m
              | None => m
              end !! code = m !! code).
    { intros m. destruct (rate_entry rt response c); by simplify_map_eq. }
    rewrite Hother.
    destruct (decide (code ∈ codes)).
    + by rewrite decide_True by set_solver.
    + by rewrite decide_False by set_solver.
Qed.

Lemma getRates_step_keys rt response flatRates code k :
  is_Some (getRates_step rt response flatRates code !! k) →
  k = code ∨ is_Some (flatRates !! k).
Proof.
  unfold getRates_step, obj_set. destruct (_ && _); [|by right].
  case_bool_decide; [by right|].
  destruct (decide (k = code)) as [->|]; [by left|]. right. by simplify_map_eq.
Qed.

Lemma getRates_fold_keys rt response codes flatRates k :
  is_Some (foldl (getRates_step rt response) flatRates codes !! k) →
  k ∈ codes ∨ is_Some (flatRates !! k).
Proof.
  revert flatRates. induction codes as [|c codes IH]; intros flatRates; [by right|].
  cbn [foldl]. intros [Hin|Hstep]%IH; [left; set_solver|].
  apply getRates_step_keys in Hstep as [->|?]; [left; set_solver|by right].
Qed.

(** C5.  When the provider answers the rates request, [getRates] returns a
    flat mapping whose entries are exactly the supported codes that the
    response holds with a rate object, each mapped to the number coerced
    from the rate's string; a supported code that is absent from the
    response or holds a string is not in the result.  The supported codes
    are asset codes: none is the name of a member of [Object.prototype]. *)
Theorem getRates_flat_mapping rt consts env base trace response :
  Forall (λ code, code ∉ Object_prototype) (SUPPORTED_ASSET_CODES consts) →
  axios rt IRatesResponse trace (rates_config rt env base trace) = Resolved response →
  ∃ flatRates,
    getRates rt consts env base trace
    = (Normal flatRates, trace ++ [rates_config rt env base trace])
    ∧ ∀ code,
        flatRates !! code
        = if decide (code ∈ SUPPORTED_ASSET_CODES consts)
          then rate_entry rt response code
          else None.
Proof.
  intros Hplain Hres. eexists. split.
  - unfold getRates.
    await_resolved rt env IRatesResponse Hres ltac:(apply log_payload_absent).
    reflexivity.
  - intros code. rewrite getRates_fold_lookup by done.
    destruct (decide _); [|done]. by destruct (rate_entry rt response code).
Qed.

(** The rates of the fixture, flattened. *)
Lemma getRates_fixture_run :
  ∃ flatRates,
    getRates (Fixture.runtime Fixture.answering) Fixture.consts Fixture.sandbox "USD" []
    = (Normal flatRates,
       [] ++ [rates_config (Fixture.runtime Fixture.answering) Fixture.sandbox "USD" []])
    ∧ ∀ code,
        flatRates !! code
        = if decide (code ∈ SUPPORTED_ASSET_CODES Fixture.consts)
          then rate_entry (Fixture.runtime Fixture.answering) Fixture.rates code
          else None.
Proof.
  apply (getRates_flat_mapping (Fixture.runtime Fixture.answering) Fixture.consts
           Fixture.sandbox "USD" [] Fixture.rates).
  - apply (bool_decide_unpack _). vm_compute. reflexivity.
  - reflexivity.
Defined.

(** C10.  Every key of a mapping [getRates] returns is a supported asset
    code, whatever other codes the response of the provider holds. *)
Theorem getRates_keys_supported rt consts env base trace flatRates trace' :
  getRates rt consts env base trace = (Normal flatRates, trace') →
  ∀ code, is_Some (flatRates !! code) → code ∈ SUPPORTED_ASSET_CODES consts.
Proof.
  unfold getRates, mbind, Async_bind. intros Hrun code Hcode.
  destruct (request _ _ _ _ _ _ _ _) as [[response|e] trace1]; [|done].
  injection Hrun as <- _.
  apply getRates_fold_keys in Hcode as [?|Hempty]; [done|].
  rewrite lookup_empty in Hempty. by destruct Hempty.
Qed.

(** The keys of the flattened rates of the fixture are supported codes. *)
Lemma getRates_fixture_keys :
  let flatRates : gmap string string :=
    list_to_map [("USD", "1"); ("EUR", "0.92"); ("JPY", "149.5")] in
  getRates (Fixture.runtime Fixture.answering) Fixture.consts Fixture.sandbox "USD" []
  = (Normal flatRates,
     [rates_config (Fixture.runtime Fixture.answering) Fixture.sandbox "USD" []])
  ∧ is_Some (flatRates !! "JPY")
  ∧ "JPY" ∈ SUPPORTED_ASSET_CODES Fixture.consts.
Proof.
  intros flatRates.
  assert (Hrun : getRates (Fixture.runtime Fixture.answering) Fixture.consts
                   Fixture.sandbox "USD" []
                 = (Normal flatRates,
                    [rates_config (Fixture.runtime Fixture.answering)
                       Fixture.sandbox "USD" []]))
    by (vm_compute; reflexivity).
  assert (Hkey : is_Some (flatRates !! "JPY")) by (vm_compute; eexists; reflexivity).
  split; [exact Hrun|]. split; [exact Hkey|].
  exact (getRates_keys_supported _ _ _ _ _ _ _ Hrun "JPY" Hkey).
Defined.

(** ** Iframe URLs (C6, C7) *)

Lemma getIframeAuthorizationToken_issues rt env clientId scope uuid trace :
  (getIframeAuthorizationToken rt env clientId scope uuid trace).2
  = trace ++ [iframe_token_config rt env clientId scope uuid trace].
Proof.
  unfold getIframeAuthorizationToken, mbind, Async_bind.
  pose proof (request_issues rt env ITokenResponse POST
    (apiUrl env +:+ "/auth/v1/tokens?clientId=" +:+ clientId)
    (Some (JSON.stringify (JObject [("scope", JArray (map JString scope))])))
    (Some (only_managedUserUuid uuid)) trace) as Hissue.
  by destruct (request _ _ _ _ _ _ _ _) as [[t|e] trace'].
Qed.

Lemma getIframeAuthorizationToken_resolved rt env clientId scope uuid trace t :
  axios rt ITokenResponse trace (iframe_token_config rt env clientId scope uuid trace)
  = Resolved t →
  getIframeAuthorizationToken rt env clientId scope uuid trace
  = (Normal t, trace ++ [iframe_token_config rt env clientId scope uuid trace]).
Proof.
  intros Hres. unfold getIframeAuthorizationToken.
  by await_resolved rt env ITokenResponse Hres ltac:(apply log_payload_stringify).
Qed.

(** A handler that asks for a token with [clientId] and [scope] and builds
    its URL by [build]. *)
Lemma handler_run rt env clientId scope (build : string → string) uuid trace :
  let handler : Async string :=
    token ← getIframeAuthorizationToken rt env clientId scope uuid; mret (build token) in
  let run : Async Value := url ← handler; mret (VString url) in
  (run trace).2 = trace ++ [iframe_token_config rt env clientId scope uuid trace]
  ∧ ∀ t,
      axios rt ITokenResponse trace (iframe_token_config rt env clientId scope uuid trace)
      = Resolved t →
      run trace
      = (Normal (VString (build t)),
         trace ++ [iframe_token_config rt env clientId scope uuid trace]).
Proof.
  intros handler run. subst handler run. split.
  - pose proof (getIframeAuthorizationToken_issues rt env clientId scope uuid trace).
    unfold mbind, Async_bind.
    by destruct (getIframeAuthorizationToken _ _ _ _ _ _) as [[t|e] trace'].
  - intros t Hres%getIframeAuthorizationToken_resolved.
    unfold mbind, Async_bind. by rewrite Hres.
Qed.

Lemma iframeMappings_lookup rt consts env (type : string) :
  iframeMappings rt consts env !! type
  = if bool_decide (type = "deposit") then Some (getDepositUrl rt consts env)
    else if bool_decide (type = "withdrawal") then Some (getWithdrawalUrl rt consts env)
    else if bool_decide (type = "exchange") then Some (getExchangeUrl rt consts env)
    else if bool_decide (type = "onboarding") then Some (getOnboardingUrl rt consts env)
    else None.
Proof.
  unfold iframeMappings, iframeMappings_entries. cbn [list_to_map foldr uncurry].
  repeat case_bool_decide; by simplify_map_eq.
Qed.

(** The client's choice of the active set and of its hosts is the one of
    the environment. *)
Lemma clientIds_active consts env :
  clientIds consts env = active_client_ids consts (environment env).
Proof. unfold clientIds, isProduction, environment. by case_bool_decide. Qed.

Lemma apiUrl_documented env : apiUrl env = documented_api_host (environment env).
Proof. unfold apiUrl, mainUrl, isProduction, environment. by case_bool_decide. Qed.

Lemma rampUrl_documented env : rampUrl env = documented_ramp_host (environment env).
Proof. unfold rampUrl, mainUrl, isProduction, environment. by case_bool_decide. Qed.

Lemma exchangeUrl_documented env :
  exchangeUrl env = documented_exchange_host (environment env).
Proof. unfold exchangeUrl, mainUrl, isProduction, environment. by case_bool_decide. Qed.

Lemma onboardingUrl_documented env :
  onboardingUrl env = documented_onboarding_host (environment env).
Proof. unfold onboardingUrl, mainUrl, isProduction, environment. by case_bool_decide. Qed.

(** C7.  For each of the four kinds, [getIframeUrl] issues exactly one
    request, the token-issuance POST to the API host of the environment,
    for the documented client identifier of the set that is active in the
    environment, with the documented scope as its body and for the given
    managed user; when the provider answers it with a token,
    [getIframeUrl] returns the documented URL around that token, on the
    host the environment has for the kind.  The three iframe hosts of an
    environment are different from one another. *)
Theorem getIframeUrl_documented rt consts env kind sel uuid trace :
  documented_iframe consts env kind = Some sel →
  let c := iframe_token_config rt env (sel_clientId sel) (sel_scope sel) uuid trace in
  (getIframeUrl rt consts env kind uuid trace).2 = trace ++ [c]
  ∧ (∀ t, axios rt ITokenResponse trace c = Resolved t →
       getIframeUrl rt consts env kind uuid trace
       = (Normal (VString (sel_url sel t)), trace ++ [c]))
  ∧ (method c = POST
     ∧ url c = documented_api_host (environment env)
               +:+ "/auth/v1/tokens?clientId=" +:+ sel_clientId sel
     ∧ data c
       = Some (JSON.stringify (JObject [("scope", JArray (map JString (sel_scope sel)))]))
     ∧ headers c !! "x-gatehub-managed-user-uuid" = given (Some uuid))
  ∧ (documented_ramp_host (environment env) ≠ documented_exchange_host (environment env)
     ∧ documented_ramp_host (environment env)
       ≠ documented_onboarding_host (environment env)
     ∧ documented_exchange_host (environment env)
       ≠ documented_onboarding_host (environment env)).
Proof.
  intros Hsel c.
  assert (Hrun : (getIframeUrl rt consts env kind uuid trace).2 = trace ++ [c]
                 ∧ ∀ t, axios rt ITokenResponse trace c = Resolved t →
                     getIframeUrl rt consts env kind uuid trace
                     = (Normal (VString (sel_url sel t)), trace ++ [c])).
  { subst c. revert Hsel. unfold documented_iframe. cbv zeta.
    rewrite <- clientIds_active, <- rampUrl_documented, <- exchangeUrl_documented,
      <- onboardingUrl_documented.
    unfold getIframeUrl, obj_get. rewrite iframeMappings_lookup.
    repeat case_bool_decide; intros [= <-]; cbn [sel_clientId sel_scope sel_url];
      apply handler_run. }
  destruct Hrun as [Hissued Hresolved].
  split; [done|]. split; [done|]. split.
  - split; [done|]. split.
    { subst c. unfold iframe_token_config, request_config; cbn [url].
      by rewrite apiUrl_documented. }
    split; [done|].
    subst c. unfold iframe_token_config, request_config; cbn [headers].
    apply headers_managed_user.
  - by destruct (environment env).
Qed.

(** The deposit URL against a provider that answers with a token. *)
Lemma getIframeUrl_deposit_run :
  getIframeUrl (Fixture.runtime Fixture.answering) Fixture.consts Fixture.sandbox
    "deposit" "user-1" []
  = (Normal (VString
       "https://managed-ramp.sandbox.gatehub.net/?paymentType=deposit&bearer=tkn-1"),
     [] ++ [iframe_token_config (Fixture.runtime Fixture.answering) Fixture.sandbox
              "sandbox-ramp" ["default"] "user-1" []]).
Proof.
  apply (proj1 (proj2 (getIframeUrl_documented (Fixture.runtime Fixture.answering)
                  Fixture.consts Fixture.sandbox "deposit" _ "user-1" [] eq_refl)));
    reflexivity.
Defined.

(** A kind that is neither one of the four nor the name of a member of
    [Object.prototype] is refused before any call. *)
Lemma getIframeUrl_unknown_kind rt consts env kind uuid trace :
  kind ∉ ["deposit"; "withdrawal"; "exchange"; "onboarding"] →
  kind ∉ Object_prototype →
  getIframeUrl rt consts env kind uuid trace
  = (Throw (BadRequest "Invalid iframe type"), trace).
Proof.
  intros Hkind Hplain. unfold getIframeUrl, obj_get.
  rewrite iframeMappings_lookup.
  by repeat (case_bool_decide; [set_solver|]).
Qed.

(** No member of [Object.prototype], called on the mapping, throws the bad
    request of the client. *)
Lemma Object_prototype_call_foreign member keys arg message :
  Object_prototype_call member keys arg ≠ Throw (BadRequest message).
Proof. unfold Object_prototype_call. by repeat case_bool_decide. Qed.

(** A kind that names a member of [Object.prototype] passes the guard: the
    member is called, no call is issued, and whatever comes of it is not the
    bad request. *)
Lemma getIframeUrl_inherited_kinds rt consts env kind uuid trace :
  kind ∈ Object_prototype →
  ∃ completion,
    getIframeUrl rt consts env kind uuid trace = (completion, trace)
    ∧ ∀ message, completion ≠ Throw (BadRequest message).
Proof.
  intros Hkind. unfold getIframeUrl, obj_get. rewrite iframeMappings_lookup.
  assert (Hforeign : kind ∉ ["deposit"; "withdrawal"; "exchange"; "onboarding"]).
  { unfold Object_prototype in Hkind. set_solver. }
  do 4 (case_bool_decide; [set_solver|]).
  rewrite bool_decide_eq_true_2 by done.
  eexists. split; [reflexivity|]. apply Object_prototype_call_foreign.
Qed.

(** C6, where the code departs from it.  The kind [toString] is not one of
    the four, yet [iframeMappings[type]] finds the member every object
    literal inherits: no bad request is raised, the member is called, and
    its result is returned as the URL.  No call is issued. *)
Theorem getIframeUrl_inherited_kind rt consts env uuid trace :
  ("toString" ∉ ["deposit"; "withdrawal"; "exchange"; "onboarding"])
  ∧ (getIframeUrl rt consts env "toString" uuid trace
     = (Normal (VString "[object Object]"), trace)).
Proof.
  split; [set_solver|].
  unfold getIframeUrl, obj_get. rewrite iframeMappings_lookup. reflexivity.
Qed.

(** * Further properties of the client *)

(** ** Requests and the trace before them *)

Lemma issues_at_ret {A} P (a : A) : issues_at P (mret a).
Proof. intros trace. exists []. split; [by rewrite app_nil_r|]. by intros i c. Qed.

Lemma issues_at_pure {A} P (completion : Completion A) :
  issues_at P (λ trace, (completion, trace)).
Proof. intros trace. exists []. split; [by rewrite app_nil_r|]. by intros i c. Qed.

Lemma issues_at_throw {A} P e : issues_at P (throw (A:=A) e).
Proof. apply issues_at_pure. Qed.

Lemma issues_at_bind {A B} P (m : Async A) (k : A → Async B) :
  issues_at P m → (∀ a, issues_at P (k a)) → issues_at P (m ≫= k).
Proof.
  intros Hm Hk trace. destruct (Hm trace) as (new & Htrace & Hnew).
  unfold mbind, Async_bind. destruct (m trace) as [[a|e] trace']; cbn in Htrace; subst.
  - destruct (Hk a (trace ++ new)) as (new' & -> & Hnew').
    exists (new ++ new'). split; [by rewrite app_assoc|].
    intros i c Hi. destruct (decide (i < length new)%nat) as [Hlt|Hge].
    + rewrite lookup_app_l in Hi by done.
      rewrite take_app_le by lia. by apply Hnew.
    + rewrite lookup_app_r in Hi by lia.
      rewrite take_app_ge, app_assoc by lia. by apply Hnew'.
  - by exists new.
Qed.

Lemma issues_at_request rt env T method url body opts
    (P : Trace → AxiosRequestConfig → Prop) :
  (∀ trace, P trace (request_config rt env method url body opts trace)) →
  issues_at P (request rt env T method url body opts).
Proof.
  intros HP trace. exists [request_config rt env method url body opts trace].
  split; [apply request_issues|].
  intros [|i] c [= <-]. cbn. by rewrite app_nil_r.
Qed.

Lemma issues_at_ignore {A} P (m : Async A) : issues_at P m → issues_at P (ignore m).
Proof. intros Hm. apply issues_at_bind; [done|]. intros. apply issues_at_ret. Qed.

Lemma issues_at_mono {A} (P Q : Trace → AxiosRequestConfig → Prop) (m : Async A) :
  (∀ pre c, P pre c → Q pre c) → issues_at P m → issues_at Q m.
Proof.
  intros HPQ Hm trace. destruct (Hm trace) as (new & ? & Hnew).
  exists new. split; [done|]. intros i c Hi. by apply HPQ, Hnew.
Qed.

(** The public methods, opened up to their requests. *)
Ltac open_call call :=
  destruct call; cbn [perform own_error fewest_requests most_requests];
  unfold getWithdrawalUrl, getDepositUrl, getOnboardingUrl, getExchangeUrl,
    getIframeUrl, obj_get, getIframeAuthorizationToken, updateEmailForManagedUser,
    createManagedUser, getUserState, connectUserToGateway, approveUserToGateway,
    createWallet, getWallet, getWalletBalance, createTransaction, getVaults,
    getRates, fetchCardApplicationProducts, createCustomer, getCardsByCustomer,
    getCardDetails;
  rewrite ?iframeMappings_lookup;
  repeat case_bool_decide;
  unfold getWithdrawalUrl, getDepositUrl, getOnboardingUrl, getExchangeUrl,
    getIframeAuthorizationToken.

(** One step through a method: a bind, a request (whose configuration is
    left to [tac]), a branch, or the end. *)
Ltac issues_at_step tac :=
  first
    [ apply issues_at_ret
    | apply issues_at_throw
    | apply issues_at_pure
    | apply issues_at_ignore
    | apply issues_at_bind; [|intros ?]
    | lazymatch goal with
      | |- issues_at _ (request ?rt ?env ?T ?m ?u ?b ?o) =>
          apply (issues_at_request rt env T m u b o); intros ?; tac
      end
    | lazymatch goal with
      | |- issues_at _ (if ?b then _ else _) => destruct b eqn:?
      end
    | progress cbv beta zeta ].

(** Every request of every public method, by [tac] on its configuration. *)
Ltac issues_at_perform tac :=
  lazymatch goal with
  | |- issues_at _ (perform ?rt ?consts ?env ?call) =>
      open_call call; repeat issues_at_step tac
  end.

(** ** The outcome of [request] *)

(** X1.  [request] hands the answer of the provider on, and rethrows its
    rejection as it is, when the body is absent, empty or a JSON text.  With
    a body that is not a JSON text the request is still issued, but building
    the payload for the logger throws: an answer of the provider is lost to
    a [SyntaxError], and so is a rejection with an [AxiosError]; any other
    rejection is rethrown as it is. *)
Theorem request_outcome rt env T method url body opts trace :
  let c := request_config rt env method url body opts trace in
  (is_Some (log_payload rt body) →
   (∀ d, axios rt T trace c = Resolved d →
      request rt env T method url body opts trace = (Normal d, trace ++ [c]))
   ∧ (∀ e, axios rt T trace c = Rejected e →
        request rt env T method url body opts trace = (Throw e, trace ++ [c])))
  ∧ (∀ b, body = Some b → b ≠ "" → JSON_parse rt b = None →
     (∀ d, axios rt T trace c = Resolved d →
        request rt env T method url body opts trace = (Throw SyntaxError, trace ++ [c]))
     ∧ (∀ e, axios rt T trace c = Rejected e →
          request rt env T method url body opts trace
          = (Throw (if instanceof_AxiosError e then SyntaxError else e), trace ++ [c]))).
Proof.
  intros c. subst c. split.
  - intros [payload Hlog]. split.
    + intros d Hres. apply request_resolved; [done|by eexists].
    + intros e Hres. unfold request.
      change (axios rt T trace _) with
        (axios rt T trace (request_config rt env method url body opts trace)).
      rewrite Hres, Hlog. by destruct (instanceof_AxiosError e).
  - intros b -> Hb Hparse.
    assert (Hlog : log_payload rt (Some b) = None).
    { unfold log_payload. by destruct b. }
    split; intros x Hres; unfold request;
      change (axios rt T trace _) with
        (axios rt T trace (request_config rt env method url (Some b) opts trace));
      rewrite Hres, Hlog; [done|by destruct (instanceof_AxiosError x)].
Qed.

(** A page of markup as the body: the provider answers, the caller gets a
    [SyntaxError]. *)
Lemma request_markup_body_run :
  request (strict_runtime Fixture.answering) Fixture.sandbox IPassThrough POST
    "https://api.sandbox.gatehub.net/core/v1/transactions" (Some "<html>") None []
  = (Throw SyntaxError,
     [] ++ [request_config (strict_runtime Fixture.answering) Fixture.sandbox POST
              "https://api.sandbox.gatehub.net/core/v1/transactions" (Some "<html>")
              None []]).
Proof.
  apply (proj1 (proj2 (request_outcome (strict_runtime Fixture.answering) Fixture.sandbox
                         IPassThrough POST
                         "https://api.sandbox.gatehub.net/core/v1/transactions"
                         (Some "<html>") None []) "<html>" eq_refl
                  ltac:(discriminate) eq_refl) (JObject []));
    reflexivity.
Defined.

(** ** The host every request goes to *)

(** X2.  Whatever public method is called, every request goes to the API
    host of the environment, which is the production host exactly when
    [NODE_ENV] is [production] and the sandbox host for any other value;
    the ramp, exchange and onboarding hosts are never called. *)
Theorem every_request_goes_to_the_api_host rt consts env call trace :
  (apiUrl env = if bool_decide (NODE_ENV env = "production")
                then "https://api.gatehub.net"
                else "https://api.sandbox.gatehub.net")
  ∧ ∃ new,
      (perform rt consts env call trace).2 = trace ++ new
      ∧ Forall (λ c, ∃ path, url c = apiUrl env +:+ "/" +:+ path) new.
Proof.
  split.
  { unfold apiUrl, mainUrl, isProduction. by case_bool_decide. }
  assert (Hat : issues_at (λ _ c, ∃ path, url c = apiUrl env +:+ "/" +:+ path)
                  (perform rt consts env call)).
  { issues_at_perform ltac:(eexists; reflexivity). }
  destruct (Hat trace) as (new & Hnew & Hall). exists new. split; [done|].
  apply Forall_lookup. intros i c Hi. by eapply Hall.
Qed.

(** ** Bodies *)

Lemma truthy_stringify_object props :
  truthy (Some (JSON.stringify (JObject props))) = true.
Proof. reflexivity. Qed.

Lemma toSign_with_body timestamp method url b :
  b ≠ "" → toSign timestamp method url (Some b) = canonical4 timestamp method url b.
Proof. intros Hb. rewrite toSign_canonical. by destruct b. Qed.

Lemma body_discipline_none rt env m u opts trace :
  body_discipline env (request_config rt env m u None opts trace).
Proof. split; [done|]. by intros b. Qed.

Lemma body_discipline_object rt env m u props opts trace :
  m ≠ GET →
  body_discipline env
    (request_config rt env m u (Some (JSON.stringify (JObject props))) opts trace).
Proof.
  intros Hm. split; [done|]. unfold request_config; cbn [data method url headers].
  rewrite truthy_stringify_object. intros b [= <-].
  assert (Hb : JSON.stringify (JObject props) ≠ "") by done.
  split; [done|]. split; [by eexists|].
  exists (pretty (Date_now rt trace)).
  rewrite headers_timestamp, headers_signature. split; [done|].
  unfold getSignature. cbn [default from_option]. by rewrite toSign_with_body.
Qed.

(** X3.  Whatever public method is called, a GET request carries no body,
    and a request that carries one carries the JSON text of an object, never
    an empty string, with a signature computed over
    [timestamp|METHOD|url|body]: through the public methods a body is always
    covered by the signature. *)
Theorem every_body_is_json_and_signed rt consts env call trace :
  ∃ new,
    (perform rt consts env call trace).2 = trace ++ new
    ∧ Forall (body_discipline env) new.
Proof.
  assert (Hat : issues_at (λ _, body_discipline env) (perform rt consts env call)).
  { issues_at_perform
      ltac:(cbv beta;
            lazymatch goal with
            | |- body_discipline _ (request_config _ _ _ _ None _ _) =>
                apply body_discipline_none
            | |- body_discipline _ (request_config _ _ _ _ (Some (JSON.stringify ?v)) _ _) =>
                try unfold approveUserToGateway_body;
                apply body_discipline_object; discriminate
            end). }
  destruct (Hat trace) as (new & Hnew & Hall). exists new. split; [done|].
  apply Forall_lookup. intros i c Hi. by eapply Hall.
Qed.

(** ** The optional headers, method by method *)

Lemma given_Some (o : option string) v : given o = Some v → o = Some v.
Proof. unfold given. by destruct (truthy o). Qed.

Lemma optional_headers_none rt env call m u body trace :
  optional_headers_of env call (request_config rt env m u body None trace).
Proof.
  unfold optional_headers_of, request_config; cbn [headers method].
  rewrite headers_managed_user, headers_card_app. by split; intros v ?%given_Some.
Qed.

Lemma optional_headers_user rt env call u url body trace :
  call_managedUserUuid call = Some u →
  optional_headers_of env call
    (request_config rt env POST url body
       (Some {| managedUserUuid := Some u; token := None; cardAppId := None |}) trace).
Proof.
  intros Hcall. unfold optional_headers_of, request_config; cbn [headers method].
  rewrite headers_managed_user, headers_card_app.
  split; intros v Hv%given_Some; by simplify_eq/=.
Qed.

Lemma optional_headers_card rt env call url body trace :
  call_of_card_application call = true →
  optional_headers_of env call
    (request_config rt env POST url body
       (Some {| managedUserUuid := None; token := None;
                cardAppId := Some (GATEHUB_CARD_APP_ID env) |}) trace).
Proof.
  intros Hcall. unfold optional_headers_of, request_config; cbn [headers method].
  rewrite headers_managed_user, headers_card_app.
  split; intros v Hv%given_Some; by simplify_eq/=.
Qed.

Lemma optional_headers_token rt env call m url body tok trace :
  optional_headers_of env call
    (request_config rt env m url body
       (Some {| managedUserUuid := None; token := tok; cardAppId := None |}) trace).
Proof.
  unfold optional_headers_of, request_config; cbn [headers method].
  rewrite headers_managed_user, headers_card_app.
  split; intros v Hv%given_Some; by simplify_eq/=.
Qed.

(** X4.  The managed-user header is only ever sent on a POST of a method
    that is called for a managed user, and then it names that user: the
    approval PUT of [connectUserToGateway] and the GETs are not bound to a
    user.  The card-application header is only ever sent on a POST of
    [createCustomer] or [getCardDetails], with the identifier of the
    environment. *)
Theorem optional_headers_by_method rt consts env call trace :
  ∃ new,
    (perform rt consts env call trace).2 = trace ++ new
    ∧ Forall (optional_headers_of env call) new.
Proof.
  assert (Hat : issues_at (λ _, optional_headers_of env call)
                  (perform rt consts env call)).
  { issues_at_perform
      ltac:(cbv beta;
            lazymatch goal with
            | |- optional_headers_of _ _ (request_config _ _ _ _ _ None _) =>
                apply optional_headers_none
            | |- optional_headers_of _ _
                   (request_config _ _ _ _ _ (Some (Build_HeadersOptions (Some _) _ _)) _) =>
                by apply optional_headers_user
            | |- optional_headers_of _ _
                   (request_config _ _ _ _ _ (Some (Build_HeadersOptions _ _ (Some _))) _) =>
                by apply optional_headers_card
            | |- optional_headers_of _ _ (request_config _ _ _ _ _ (Some _) _) =>
                apply optional_headers_token
            end). }
  destruct (Hat trace) as (new & Hnew & Hall). exists new. split; [done|].
  apply Forall_lookup. intros i c Hi. by eapply Hall.
Qed.

(** ** The clock *)

(** X5.  Every request of every public method is stamped with the clock as
    it is read when that request is issued, after the requests the method
    issued before it, and is signed over that very timestamp: the second
    request of a workflow never reuses the timestamp or the signature
    input of the first. *)
Theorem every_request_is_stamped_when_issued rt consts env call trace :
  ∃ new,
    (perform rt consts env call trace).2 = trace ++ new
    ∧ ∀ i c, new !! i = Some c →
        let timestamp := pretty (Date_now rt (trace ++ take i new)) in
        headers c !! "x-gatehub-timestamp" = Some timestamp
        ∧ headers c !! "x-gatehub-signature"
          = Some (getSignature env timestamp (method c) (url c) (data c)).
Proof.
  assert (Hat : issues_at
                  (λ pre c,
                     headers c !! "x-gatehub-timestamp" = Some (pretty (Date_now rt pre))
                     ∧ headers c !! "x-gatehub-signature"
                       = Some (getSignature env (pretty (Date_now rt pre))
                                 (method c) (url c) (data c)))
                  (perform rt consts env call)).
  { issues_at_perform
      ltac:(unfold request_config; cbn [headers method url data];
            rewrite headers_timestamp, headers_signature, getSignature_data; done). }
  destruct (Hat trace) as (new & Hnew & Hall). by exists new.
Qed.

(** ** How a call ends *)

Lemma all_answered_nil rt trace : all_answered rt trace [].
Proof. by intros i c. Qed.

Lemma all_answered_app rt trace sent new :
  all_answered rt trace sent → all_answered rt (trace ++ sent) new →
  all_answered rt trace (sent ++ new).
Proof.
  intros Hsent Hnew i c Hi. destruct (decide (i < length sent)%nat) as [Hlt|Hge].
  - rewrite lookup_app_l in Hi by done. rewrite take_app_le by lia. by apply Hsent.
  - rewrite lookup_app_r in Hi by lia. rewrite take_app_ge, app_assoc by lia.
    by apply Hnew.
Qed.

Lemma ends_by_pure {A} rt (own : Exn → Prop) (completion : Completion A) :
  (∀ e, completion = Throw e → own e) →
  ends_by rt own (λ trace, (completion, trace)).
Proof.
  intros Hown trace. exists []. split; [by rewrite app_nil_r|]. cbn.
  destruct completion as [a|e]; [apply all_answered_nil|].
  left. split; [by apply Hown|apply all_answered_nil].
Qed.

Lemma ends_by_ret {A} rt own (a : A) : ends_by rt own (mret a).
Proof. by apply (ends_by_pure rt own (Normal a)). Qed.

Lemma ends_by_throw {A} rt (own : Exn → Prop) e : own e → ends_by rt own (throw (A:=A) e).
Proof. intros He. apply (ends_by_pure rt own (Throw e)). by intros ? [= <-]. Qed.

Lemma ends_by_bind {A B} rt own (m : Async A) (k : A → Async B) :
  ends_by rt own m → (∀ a, ends_by rt own (k a)) → ends_by rt own (m ≫= k).
Proof.
  intros Hm Hk trace. destruct (Hm trace) as (sent & Htrace & Hsent).
  unfold mbind, Async_bind.
  destruct (m trace) as [[a|e] trace']; cbn in Htrace, Hsent; subst; [|by exists sent].
  destruct (Hk a (trace ++ sent)) as (new & Htrace & Hnew).
  exists (sent ++ new). split; [by rewrite Htrace, app_assoc|].
  destruct (k a (trace ++ sent)).1 as [b|e].
  - by apply all_answered_app.
  - destruct Hnew as [[Hown Hnew]|(sent' & c & T & -> & Hsent' & Hrejected)].
    + left. split; [done|]. by apply all_answered_app.
    + right. exists (sent ++ sent'), c, T.
      split; [by rewrite app_assoc|]. split; [by apply all_answered_app|].
      by rewrite app_assoc.
Qed.

Lemma ends_by_request rt env own T method url body opts :
  is_Some (log_payload rt body) →
  ends_by rt own (request rt env T method url body opts).
Proof.
  intros [payload Hlog] trace.
  exists [request_config rt env method url body opts trace].
  split; [apply request_issues|].
  unfold request.
  change (axios rt T trace _) with
    (axios rt T trace (request_config rt env method url body opts trace)).
  destruct (axios rt T trace _) as [d|e] eqn:Hres; rewrite Hlog; cbn.
  - intros [|i] c [= <-]; cbn. rewrite app_nil_r. by exists T, d.
  - assert (Hlast : rejected_last rt trace
                      [request_config rt env method url body opts trace] e).
    { exists [], (request_config rt env method url body opts trace), T.
      split; [done|]. split; [apply all_answered_nil|]. by rewrite app_nil_r. }
    destruct (instanceof_AxiosError e); cbn; by right.
Qed.

Lemma ends_by_ignore {A} rt own (m : Async A) : ends_by rt own m → ends_by rt own (ignore m).
Proof. intros Hm. apply ends_by_bind; [done|]. intros. apply ends_by_ret. Qed.

Ltac ends_by_step :=
  first
    [ apply ends_by_ret
    | apply ends_by_ignore
    | apply ends_by_bind; [|intros ?]
    | lazymatch goal with
      | |- ends_by _ _ (request ?rt ?env ?T ?m ?u None ?o) =>
          apply (ends_by_request rt env _ T m u None o), log_payload_absent
      | |- ends_by _ _ (request ?rt ?env ?T ?m ?u (Some (JSON.stringify ?v)) ?o) =>
          apply (ends_by_request rt env _ T m u (Some (JSON.stringify v)) o),
            log_payload_stringify
      end
    | lazymatch goal with
      | |- ends_by _ _ (if ?b then _ else _) => destruct b eqn:?
      end
    | progress cbv beta zeta ].

(** X6.  How every public method ends.  When it returns, every request it
    issued was answered.  When it throws, either the provider rejected its
    last request, every earlier one having been answered, and what is thrown
    is that rejection, unchanged; or every request was answered and the
    error is one of the method's own: the bad request or the type error of
    [getIframeUrl], or the missing token of [getCardDetails].  In
    particular no request follows a rejected one, and building the payload
    of the logger never fails on a body the client wrote.  An answer is of
    the response type the method declares, as everywhere in this model. *)
Theorem every_call_ends_by_its_requests rt consts env call trace :
  ∃ new,
    (perform rt consts env call trace).2 = trace ++ new
    ∧ match (perform rt consts env call trace).1 with
      | Normal _ => all_answered rt trace new
      | Throw e =>
          (own_error call e ∧ all_answered rt trace new)
          ∨ rejected_last rt trace new e
      end.
Proof.
  revert trace. change (ends_by rt (own_error call) (perform rt consts env call)).
  open_call call; repeat ends_by_step.
  - apply ends_by_pure. intros e. unfold Object_prototype_call.
    repeat case_bool_decide; intros [= <-]. by right.
  - apply ends_by_throw. left. split; [done|]. split; [set_solver|done].
  - by apply ends_by_throw.
Qed.

(** ** How many requests a call issues *)

Lemma sends_pure {A} hi (completion : Completion A) :
  sends 0 hi (λ trace, (completion, trace)).
Proof. intros trace. exists []. split; [by rewrite app_nil_r|]. cbn. lia. Qed.

Lemma sends_ret {A} hi (a : A) : sends 0 hi (mret a).
Proof. apply (sends_pure hi (Normal a)). Qed.

Lemma sends_throw {A} hi e : sends 0 hi (throw (A:=A) e).
Proof. apply (sends_pure hi (Throw e)). Qed.

Lemma sends_request rt env T method url body opts lo hi :
  (lo ≤ 1)%nat →
  sends lo (S hi) (request rt env T method url body opts).
Proof.
  intros Hlo trace. eexists. split; [apply request_issues|]. cbn. lia.
Qed.

(** A continuation that issues nothing. *)
Lemma sends_bind_pure {A B} lo hi (m : Async A) (k : A → Async B) :
  sends lo hi m → (∀ a, sends 0 0 (k a)) → sends lo hi (m ≫= k).
Proof.
  intros Hm Hk trace. destruct (Hm trace) as (sent & Htrace & Hsent).
  unfold mbind, Async_bind.
  destruct (m trace) as [[a|e] trace']; cbn in Htrace; subst; [|by exists sent].
  destruct (Hk a (trace ++ sent)) as (new & Htrace & Hnew).
  assert (new = []) as -> by (apply length_zero_iff_nil; lia).
  exists sent. split; [by rewrite Htrace, app_nil_r|done].
Qed.

(** A request and what follows it. *)
Lemma sends_bind_request {B} rt env T method url body opts lo hi
    (k : response T → Async B) :
  (lo ≤ 1)%nat →
  (∀ a, sends 0 hi (k a)) →
  sends lo (S hi) (request rt env T method url body opts ≫= k).
Proof.
  intros Hlo Hk trace.
  pose proof (request_issues rt env T method url body opts trace) as Hissue.
  unfold mbind, Async_bind.
  destruct (request _ _ _ _ _ _ _ _) as [[a|e] trace']; cbn in Hissue; subst.
  - destruct (Hk a (trace ++ [request_config rt env method url body opts trace]))
      as (new & Htrace & Hnew).
    eexists (_ :: new). split; [by rewrite Htrace, <-app_assoc|]. cbn. lia.
  - eexists [_]. split; [done|]. cbn. lia.
Qed.

Lemma sends_ignore {A} lo hi (m : Async A) : sends lo hi m → sends lo hi (ignore m).
Proof. intros Hm. apply sends_bind_pure; [done|]. intros. apply sends_ret. Qed.

Ltac sends_step :=
  first
    [ apply sends_ret
    | apply sends_throw
    | apply sends_pure
    | apply sends_ignore
    | lazymatch goal with
      | |- sends _ _ (request ?rt ?env ?T ?m ?u ?b ?o ≫= ?k) =>
          apply (sends_bind_request rt env T m u b o); [lia|intros ?]
      | |- sends _ _ (_ ≫= _) =>
          apply sends_bind_pure; [|intros ?]
      | |- sends _ _ (request ?rt ?env ?T ?m ?u ?b ?o) =>
          apply (sends_request rt env T m u b o); lia
      | |- sends _ _ (if ?b then _ else _) => destruct b eqn:?
      end
    | progress cbv beta zeta ].

(** X7.  Every public method issues exactly one request, but for three:
    [getIframeUrl], which issues none when it refuses the kind, and the two
    workflows [connectUserToGateway] and [getCardDetails], which issue one
    or two.  No method retries a request or issues a third. *)
Theorem every_call_request_count rt consts env call trace :
  ∃ new,
    (perform rt consts env call trace).2 = trace ++ new
    ∧ (fewest_requests call ≤ length new ≤ most_requests call)%nat.
Proof.
  revert trace.
  change (sends (fewest_requests call) (most_requests call) (perform rt consts env call)).
  open_call call; repeat sends_step.
Qed.

(** ** The card details, when the token is there *)

(** X8.  When the token-issuance POST of [getCardDetails] is answered with
    a non-empty token, the card-data GET follows and decides the outcome:
    what it is answered with is returned as it is, and what it is rejected
    with is thrown as it is.  That GET carries the token as a bearer
    credential, no body and no card-application header; the POST before it
    carries the card-application identifier and no bearer credential. *)
Theorem getCardDetails_second_hop rt env requestBody trace tok :
  let c1 := card_token_config rt env requestBody trace in
  let c2 := card_data_config rt env tok (trace ++ [c1]) in
  axios rt ILinksResponse trace c1 = Resolved (Some tok) →
  tok ≠ "" →
  (∀ d, axios rt IPassThrough (trace ++ [c1]) c2 = Resolved d →
     getCardDetails rt env requestBody trace = (Normal d, trace ++ [c1; c2]))
  ∧ (∀ e, axios rt IPassThrough (trace ++ [c1]) c2 = Rejected e →
       getCardDetails rt env requestBody trace = (Throw e, trace ++ [c1; c2]))
  ∧ (headers c2 !! "Authorization" = Some ("Bearer " +:+ tok)
     ∧ headers c2 !! "x-gatehub-card-app-id" = None
     ∧ data c2 = None
     ∧ headers c1 !! "Authorization" = None
     ∧ headers c1 !! "x-gatehub-card-app-id" = given (Some (GATEHUB_CARD_APP_ID env))).
Proof.
  intros c1 c2 Hres Htok. subst c1 c2.
  unfold card_token_config, card_data_config, only_token, only_cardAppId in *.
  assert (Htruthy : truthy (Some tok) = true) by by destruct tok.
  split; [|split].
  - intros d Hd. unfold getCardDetails.
    await_resolved rt env ILinksResponse Hres ltac:(apply log_payload_stringify).
    cbv beta zeta. rewrite Htruthy. cbn [negb].
    rewrite (request_resolved rt env IPassThrough _ _ _ _ _ d Hd (log_payload_absent rt)).
    by rewrite <- app_assoc.
  - intros e He. unfold getCardDetails.
    await_resolved rt env ILinksResponse Hres ltac:(apply log_payload_stringify).
    cbv beta zeta. rewrite Htruthy. cbn [negb].
    rewrite (request_rejected_as_is rt env IPassThrough _ _ _ _ _ e He
               (log_payload_absent rt)).
    by rewrite <- app_assoc.
  - unfold request_config; cbn [headers data].
    rewrite !headers_authorization, !headers_card_app. cbn.
    unfold given. by rewrite Htruthy.
Qed.

(** The card details against a provider that answers both hops. *)
Lemma getCardDetails_answered_run :
  getCardDetails (Fixture.runtime Fixture.answering) Fixture.sandbox
    [("cardId", JString "card-1")] []
  = (Normal (JObject []),
     [] ++ [card_token_config (Fixture.runtime Fixture.answering) Fixture.sandbox
              [("cardId", JString "card-1")] [];
            card_data_config (Fixture.runtime Fixture.answering) Fixture.sandbox "card-tkn"
              ([] ++ [card_token_config (Fixture.runtime Fixture.answering) Fixture.sandbox
                        [("cardId", JString "card-1")] []])]).
Proof.
  apply (proj1 (getCardDetails_second_hop (Fixture.runtime Fixture.answering)
                  Fixture.sandbox [("cardId", JString "card-1")] [] "card-tkn"
                  eq_refl ltac:(discriminate)) (JObject []));
    reflexivity.
Defined.

(** ** The format of a signature *)

Lemma length_be_bytes n x : length (SHA256.be_bytes n x) = n.
Proof. unfold SHA256.be_bytes. by rewrite length_map, length_rev, length_seq. Qed.

Lemma be_bytes_bounds n x : Forall (λ b, 0 ≤ b < 256) (SHA256.be_bytes n x).
Proof.
  unfold SHA256.be_bytes. apply Forall_map, Forall_forall. intros i _. cbn.
  by apply Z.mod_pos_bound.
Qed.

Lemma length_compress h block :
  length h = 8%nat → length (SHA256.compress h block) = 8%nat.
Proof.
  intros Hh. unfold SHA256.compress. cbv zeta.
  rewrite length_map, length_combine, Hh. reflexivity.
Qed.

Lemma length_blocks n h bs : length h = 8%nat → length (SHA256.blocks n h bs) = 8%nat.
Proof.
  revert h bs. induction n as [|n IH]; intros h bs Hh; [done|].
  cbn [SHA256.blocks]. by apply IH, length_compress.
Qed.

Lemma length_digest msg : length (SHA256.digest msg) = 32%nat.
Proof.
  unfold SHA256.digest. cbv zeta.
  pose proof (length_blocks (length (SHA256.pad msg) / 64) SHA256.H0 (SHA256.pad msg)
                eq_refl) as Hwords.
  destruct (SHA256.blocks _ _ _) as [|? [|? [|? [|? [|? [|? [|? [|? [|? ?]]]]]]]]];
    try discriminate Hwords.
  cbn [map concat]. by rewrite !length_app, !length_be_bytes.
Qed.

Lemma digest_bounds msg : Forall (λ b, 0 ≤ b < 256) (SHA256.digest msg).
Proof.
  unfold SHA256.digest. cbv zeta. apply Forall_concat, Forall_map, Forall_forall.
  intros w _. apply be_bytes_bounds.
Qed.

Lemma hex_digit_lower d :
  0 ≤ d < 16 → hex_digit d ∈ list_ascii_of_string "0123456789abcdef".
Proof.
  intros Hd.
  assert (Hcases : d ∈ [0; 1; 2; 3; 4; 5; 6; 7; 8; 9; 10; 11; 12; 13; 14; 15]).
  { assert (d = 0 ∨ d = 1 ∨ d = 2 ∨ d = 3 ∨ d = 4 ∨ d = 5 ∨ d = 6 ∨ d = 7 ∨ d = 8
            ∨ d = 9 ∨ d = 10 ∨ d = 11 ∨ d = 12 ∨ d = 13 ∨ d = 14 ∨ d = 15) by lia.
    set_solver. }
  clear Hd. revert d Hcases. apply Forall_forall.
  repeat (apply Forall_cons; split; [vm_compute; set_solver|]). apply Forall_nil_2.
Qed.

Lemma length_string_of_list_ascii l : String.length (string_of_list_ascii l) = length l.
Proof. induction l as [|c l IH]; [done|]. cbn. by rewrite IH. Qed.

Lemma hex_of_bytes_length bs : String.length (hex_of_bytes bs) = (2 * length bs)%nat.
Proof.
  unfold hex_of_bytes. rewrite length_string_of_list_ascii.
  induction bs as [|b bs IH]; [done|]. cbn [map concat length app]. rewrite IH. lia.
Qed.

Lemma hex_of_bytes_lower bs : Forall (λ b, 0 ≤ b < 256) bs → lowercase_hex (hex_of_bytes bs).
Proof.
  intros Hbs. unfold lowercase_hex, hex_of_bytes.
  rewrite list_ascii_of_string_of_list_ascii.
  apply Forall_concat, Forall_map. eapply Forall_impl; [exact Hbs|].
  intros b Hb. cbn in Hb |- *. repeat apply Forall_cons_2; [| |apply Forall_nil_2].
  - apply hex_digit_lower.
    split; [apply Z.div_pos|apply Z.div_lt_upper_bound]; lia.
  - apply hex_digit_lower. by apply Z.mod_pos_bound.
Qed.

(** X9.  Whatever the secret and whatever is signed, the signature is 64
    lowercase hexadecimal digits, the hexadecimal form of a 32-byte digest,
    and this is what [getRequestHeaders] puts in the signature header. *)
Theorem getSignature_format env timestamp method url body opts :
  let signature := getSignature env timestamp method url body in
  String.length signature = 64%nat
  ∧ lowercase_hex signature
  ∧ getRequestHeaders env timestamp method url body opts !! "x-gatehub-signature"
    = Some signature.
Proof.
  cbv zeta. unfold getSignature, createHmac_sha256_hex, HMAC.sha256.
  split; [|split].
  - by rewrite hex_of_bytes_length, length_digest.
  - apply hex_of_bytes_lower, digest_bounds.
  - apply headers_signature.
Qed.

(** ** Rates, whatever the order of the supported codes *)

Lemma getRates_step_other rt response flatRates code k :
  k ≠ code → getRates_step rt response flatRates code !! k = flatRates !! k.
Proof.
  intros Hne. unfold getRates_step, obj_set. destruct (_ && _); [|done].
  case_bool_decide; by simplify_map_eq.
Qed.

Lemma getRates_step_same rt response (f g : gmap string (JSNumber rt)) code :
  f !! code = g !! code →
  getRates_step rt response f code !! code = getRates_step rt response g code !! code.
Proof.
  intros Hfg. unfold getRates_step, obj_set. destruct (_ && _); [|done].
  case_bool_decide; by simplify_map_eq.
Qed.

Lemma getRates_step_again rt response (f : gmap string (JSNumber rt)) code :
  getRates_step rt response (getRates_step rt response f code) code !! code
  = getRates_step rt response f code !! code.
Proof.
  unfold getRates_step, obj_set. destruct (_ && _); [|done].
  case_bool_decide; by simplify_map_eq.
Qed.

(** What the loop leaves under a key: what the step for that key alone
    writes, when the key is among the codes. *)
Lemma getRates_fold_at rt response codes (flatRates : gmap string (JSNumber rt)) k :
  foldl (getRates_step rt response) flatRates codes !! k
  = if decide (k ∈ codes)
    then getRates_step rt response flatRates k !! k
    else flatRates !! k.
Proof.
  revert flatRates. induction codes as [|c codes IH]; intros flatRates; [done|].
  cbn [foldl]. rewrite IH. destruct (decide (k = c)) as [->|Hne].
  - rewrite (decide_True (P := c ∈ c :: codes)) by set_solver.
    destruct (decide (c ∈ codes)); [apply getRates_step_again|done].
  - destruct (decide (k ∈ codes)).
    + rewrite decide_True by set_solver.
      apply getRates_step_same. by apply getRates_step_other.
    + rewrite decide_False by set_solver. by apply getRates_step_other.
Qed.

(** X10.  What [getRates] does depends on the supported asset codes as a
    set only: two lists of codes with the same members, in any order and
    with any repetitions, give the same request, the same outcome and the
    same mapping. *)
Theorem getRates_ignores_order rt consts consts' env base trace :
  (∀ code, code ∈ SUPPORTED_ASSET_CODES consts ↔ code ∈ SUPPORTED_ASSET_CODES consts') →
  getRates rt consts env base trace = getRates rt consts' env base trace.
Proof.
  intros Hsame. unfold getRates, mbind, Async_bind.
  destruct (request _ _ _ _ _ _ _ _) as [[response|e] trace']; [|done].
  unfold mret, Async_ret. do 2 f_equal. apply map_eq. intros k.
  rewrite !getRates_fold_at.
  destruct (decide (k ∈ SUPPORTED_ASSET_CODES consts)) as [Hin|Hout].
  - by rewrite decide_True by by apply Hsame.
  - rewrite decide_False; [done|]. by rewrite <- Hsame.
Qed.

(** The fixture's rates, with the supported codes reordered and repeated. *)
Lemma getRates_reordered_run :
  getRates (Fixture.runtime Fixture.answering) Fixture.consts Fixture.sandbox "USD" []
  = getRates (Fixture.runtime Fixture.answering) consts_reordered Fixture.sandbox "USD" [].
Proof.
  apply (getRates_ignores_order (Fixture.runtime Fixture.answering) Fixture.consts
           consts_reordered Fixture.sandbox "USD" []).
  intros code. cbn. set_solver.
Defined.

(** ** Paths built from identifiers *)

Lemma append_cancel_l (a x y : string) : a +:+ x = a +:+ y → x = y.
Proof.
  induction a as [|c a IH]; rewrite ?append_empty, ?append_cons; [done|].
  intros [= Heq]. by apply IH.
Qed.

Lemma append_assoc_r (a b c : string) : (a +:+ b) +:+ c = a +:+ b +:+ c.
Proof.
  induction a as [|d a IH]; rewrite ?append_empty, ?append_cons; [done|].
  by rewrite IH.
Qed.

Lemma slash_split (a b x y : string) :
  has_slash a = false → has_slash b = false →
  a +:+ String "/" x = b +:+ String "/" y → a = b ∧ x = y.
Proof.
  revert b. induction a as [|c a IH]; intros [|d b] Ha Hb Heq;
    rewrite ?append_cons, ?append_empty in Heq; cbn in Ha, Hb.
  - by injection Heq as ->.
  - injection Heq as <- _. by rewrite Ascii.eqb_refl in Hb.
  - injection Heq as -> _. by rewrite Ascii.eqb_refl in Ha.
  - injection Heq as -> Heq.
    apply orb_false_elim in Ha as [_ Ha]. apply orb_false_elim in Hb as [_ Hb].
    by destruct (IH b Ha Hb Heq) as [-> ->].
Qed.

(** X11.  [getWallet] issues one GET, to the path built from the user and
    the wallet identifiers as they are given.  When the user identifiers
    hold no slash, two such requests go to the same URL only for the same
    user and the same wallet.  Without that, the identifiers are not told
    apart: a user identifier that ends in a wallets segment shifts the
    boundary, and the request is the one of another user's wallet. *)
Theorem getWallet_url_names_one_wallet rt env u w u' w' trace trace' :
  (getWallet rt env u w trace).2 = trace ++ [wallet_config rt env u w trace]
  ∧ (has_slash u = false → has_slash u' = false →
     url (wallet_config rt env u w trace) = url (wallet_config rt env u' w' trace') →
     u = u' ∧ w = w')
  ∧ wallet_config rt env (u +:+ "/wallets/" +:+ w) w' trace
    = wallet_config rt env u (w +:+ "/wallets/" +:+ w') trace.
Proof.
  split; [apply (request_issues rt env IPassThrough)|]. split.
  - intros Hu Hu'. unfold wallet_config, request_config; cbn [url].
    intros Heq%append_cancel_l%append_cancel_l.
    change ("/wallets/" +:+ w) with (String "/" ("wallets/" +:+ w)) in Heq.
    change ("/wallets/" +:+ w') with (String "/" ("wallets/" +:+ w')) in Heq.
    apply slash_split in Heq as [-> Heq%append_cancel_l]; done.
  - unfold wallet_config. by rewrite !append_assoc_r.
Qed.

(** Two users without a slash in their identifiers: two URLs. *)
Lemma getWallet_two_users_run :
  url (wallet_config (Fixture.runtime Fixture.answering) Fixture.sandbox
         "user-1" "wallet-1" [])
  ≠ url (wallet_config (Fixture.runtime Fixture.answering) Fixture.sandbox
           "user-2" "wallet-1" []).
Proof.
  intros Heq.
  destruct (proj1 (proj2 (getWallet_url_names_one_wallet
                            (Fixture.runtime Fixture.answering) Fixture.sandbox
                            "user-1" "wallet-1" "user-2" "wallet-1" [] []))
              eq_refl eq_refl Heq) as [Hu _].
  discriminate Hu.
Defined.

(** ** The secret key *)

Lemma delete_spread_if cond key value name (obj : gmap string string) :
  name ≠ key →
  delete name (spread_if cond key value obj) = spread_if cond key value (delete name obj).
Proof.
  intros Hne. unfold spread_if. destruct (truthy cond); [|done].
  by rewrite delete_insert_ne.
Qed.

Lemma headers_without_signature env timestamp method url body opts :
  delete "x-gatehub-signature" (getRequestHeaders env timestamp method url body opts)
  = unsigned_headers (GATEHUB_ACCESS_KEY env) timestamp opts.
Proof.
  unfold getRequestHeaders, unsigned_headers. cbv zeta.
  rewrite !delete_spread_if by done. by do 3 f_equal.
Qed.

(** X12.  The secret key reaches a request through the signature header
    and nowhere else: under two environments with the same access key, the
    same call of [request] after the same trace issues requests with the
    same method, URL and body and with the same headers but for
    [x-gatehub-signature]. *)
Theorem secret_key_only_in_the_signature rt env env' m u body opts trace :
  GATEHUB_ACCESS_KEY env = GATEHUB_ACCESS_KEY env' →
  let c := request_config rt env m u body opts trace in
  let c' := request_config rt env' m u body opts trace in
  (request rt env IPassThrough m u body opts trace).2 = trace ++ [c]
  ∧ method c = method c'
  ∧ url c = url c'
  ∧ data c = data c'
  ∧ delete "x-gatehub-signature" (headers c) = delete "x-gatehub-signature" (headers c').
Proof.
  intros Hkey c c'. subst c c'.
  split; [apply (request_issues rt env IPassThrough)|].
  unfold request_config; cbn [method url data headers].
  do 3 (split; [done|]). by rewrite !headers_without_signature, Hkey.
Qed.

(** Two secrets: two signatures, and otherwise one request. *)
Lemma request_other_secret_run :
  let c := request_config (Fixture.runtime Fixture.answering) Fixture.sandbox GET
             "https://api.sandbox.gatehub.net/rates/v1/liquidity_provider/vaults"
             None None [] in
  let c' := request_config (Fixture.runtime Fixture.answering) sandbox_other_secret GET
              "https://api.sandbox.gatehub.net/rates/v1/liquidity_provider/vaults"
              None None [] in
  delete "x-gatehub-signature" (headers c) = delete "x-gatehub-signature" (headers c')
  ∧ headers c !! "x-gatehub-signature" ≠ headers c' !! "x-gatehub-signature".
Proof.
  cbv zeta. split.
  - apply (secret_key_only_in_the_signature (Fixture.runtime Fixture.answering)
             Fixture.sandbox sandbox_other_secret GET
             "https://api.sandbox.gatehub.net/rates/v1/liquidity_provider/vaults"
             None None [] eq_refl).
  - unfold request_config; cbn [headers]. rewrite !headers_signature.
    vm_compute. discriminate.
Defined.
